(** * bulkmt: the batch accumulation / flush engine of [command_processor.h]

    A shallow embedding of the three classes of [src/command_processor.h]
    ([Output] with its two implementations, [BatchCommandProcessor] and
    [BatchConsoleInput]) and the properties of the batching engine.

    Conventions of the model.
    - Subscriber objects live on a heap indexed by allocation number; an
      identifier is never reused, so a [std::weak_ptr] is the identifier and
      [lock()] is the heap lookup ([None] once the object is destroyed).
    - Everything observable is appended to a log: each [update] received by a
      subscriber, each fan-out of [DumpBatch] (the threads spawned and joined
      there, one unit per thread), and the entry into each public operation of
      the engine.
    - [m_blockDepth] is a C++ [int]; it is modelled by an integer of [Z].
      Lemma [depth_bounded] shows that its absolute value
      never exceeds the number of lines processed, so the model agrees with
      the machine integer on every run shorter than 2^31 lines. *)

From stdpp Require Import gmap strings list.
From Stdlib Require Import ZArith Lia.


(** ** Constants and commands *)

Definition BULK : string := "bulk: ".
Definition START_BLOCK : string := "{".
Definition END_BLOCK : string := "}".

(** [timeStamp] is a [system_clock::time_point], kept as its tick count since
    the epoch. *)
Record Command : Type := mkCommand {
  text : string;
  timeStamp : Z
}.

(** [system_clock] ticks per second (nanosecond ticks). *)
Definition ticks_per_second : Z := 1000000000%Z.

(** ** What a subscriber's flush action does *)

Inductive Effect : Type :=
| WriteConsole (line : string)
    (** [std::cout << output << std::endl] *)
| WriteFile (seconds : Z) (content : string)
    (** the file [bulk<seconds>_<thread id>.log] receives [content]; the
        thread id is chosen by the runtime and is not part of the model *)
| IndexOutOfRange.
    (** [m_commands[0]] evaluated on an empty vector *)

Module Output.

(** The two classes derived from [Output]. *)
Inductive cls : Type := ConsoleOutput | ReportWriter.

Record t : Type := mk {
  dyn : cls;
  m_commands : list Command
}.

(** [std::accumulate] with the lambda of [Output::Join]. *)
Definition Join (v : list Command) : string :=
  fold_left
    (fun s com =>
       if String.eqb s "" then s +:+ text com
       else (s +:+ ", ") +:+ text com)
    v "".

Definition update (commands : list Command) (o : t) : t :=
  {| dyn := dyn o; m_commands := commands |}.

(** [ReportWriter::GetFilename]: the seconds read from [m_commands[0]];
    [None] when the vector has no element 0. *)
Definition GetFilename (o : t) : option Z :=
  match m_commands o with
  | [] => None
  | c :: _ => Some (Z.quot (timeStamp c) ticks_per_second)
  end.

Definition ProcessCommand (o : t) : Effect :=
  let output := BULK +:+ Join (m_commands o) in
  match dyn o with
  | ConsoleOutput => WriteConsole output
  | ReportWriter =>
      match GetFilename o with
      | Some seconds => WriteFile seconds output
      | None => IndexOutOfRange
      end
  end.

End Output.

(** ** The observable log *)

(** One thread of a fan-out: the subscriber it runs, the snapshot that
    subscriber holds, and what its flush action does with it. *)
Record FlushUnit : Type := mkUnit {
  unit_sub : nat;
  unit_batch : list Command;
  unit_effect : Effect
}.

Inductive Event : Type :=
| EvUpdate (s : nat) (snapshot : list Command)
    (** [s->update(m_commands)] *)
| EvFanOut (units : list FlushUnit)
    (** the threads of one [DumpBatch], spawned and all joined *)
| EvStartBlock
| EvFinishBlock
| EvSubmit (c : Command).
    (** entry into [StartBlock], [FinishBlock], [ProcessCommand] *)

Record World : Type := mkWorld {
  heap : gmap nat Output.t;
  next : nat;
  log : list Event
}.

Definition empty_world : World :=
  {| heap := ∅; next := 0; log := [] |}.

Definition emit (e : Event) (w : World) : World :=
  {| heap := heap w; next := next w; log := log w ++ [e] |}.

(** [std::make_shared<...>()]: a new object with an empty [m_commands]. *)
Definition make_shared (c : Output.cls) (w : World) : nat * World :=
  (next w,
   {| heap := <[next w := Output.mk c []]> (heap w);
      next := S (next w);
      log := log w |}).

(** The last [shared_ptr] to [s] goes away. *)
Definition release (s : nat) (w : World) : World :=
  {| heap := delete s (heap w); next := next w; log := log w |}.

(** ** Reading the log *)

Definition fanouts (l : list Event) : list (list FlushUnit) :=
  omap (fun e => match e with EvFanOut us => Some us | _ => None end) l.

(** The batches subscriber [s] flushed, in flush order. *)
Definition flushed (s : nat) (l : list Event) : list (list Command) :=
  unit_batch <$>
    filter (fun u => unit_sub u = s) (concat (fanouts l)).

(** The snapshots subscriber [s] was notified with, in order. *)
Definition updates (s : nat) (l : list Event) : list (list Command) :=
  omap (fun e => match e with
                 | EvUpdate s' snap => if decide (s' = s) then Some snap else None
                 | _ => None
                 end) l.

(** The effects of all flush actions, in spawn order. *)
Definition effects (l : list Event) : list Effect :=
  unit_effect <$> concat (fanouts l).

(** ** The engine *)

Module BatchCommandProcessor.

Record t : Type := mk {
  m_bulkSize : nat;
  m_blockForced : bool;
  m_commands : list Command;
  m_subscribers : list nat
}.

Definition create (bulkSize : nat) : t :=
  {| m_bulkSize := bulkSize; m_blockForced := false;
     m_commands := []; m_subscribers := [] |}.

Definition set_forced (b : bool) (p : t) : t :=
  {| m_bulkSize := m_bulkSize p; m_blockForced := b;
     m_commands := m_commands p; m_subscribers := m_subscribers p |}.

Definition set_commands (cs : list Command) (p : t) : t :=
  {| m_bulkSize := m_bulkSize p; m_blockForced := m_blockForced p;
     m_commands := cs; m_subscribers := m_subscribers p |}.

Definition set_subscribers (ss : list nat) (p : t) : t :=
  {| m_bulkSize := m_bulkSize p; m_blockForced := m_blockForced p;
     m_commands := m_commands p; m_subscribers := ss |}.

(** One iteration of the loop of [notify]. *)
Definition notify_one (snapshot : list Command) (w : World) (s : nat) : World :=
  match heap w !! s with
  | Some o =>
      {| heap := <[s := Output.update snapshot o]> (heap w);
         next := next w;
         log := log w ++ [EvUpdate s snapshot] |}
  | None => w
  end.

Definition notify (p : t) (w : World) : World :=
  fold_left (notify_one (m_commands p)) (m_subscribers p) w.

Definition ClearBatch (p : t) (w : World) : t * World :=
  let p' := set_commands [] p in (p', notify p' w).

(** The threads [DumpBatch] creates: one per registry entry whose [lock()]
    succeeds, in registry order. *)
Definition spawn (h : gmap nat Output.t) (subs : list nat) : list FlushUnit :=
  omap (fun s =>
          (fun o => mkUnit s (Output.m_commands o) (Output.ProcessCommand o))
            <$> h !! s)
       subs.

Definition DumpBatch (p : t) (w : World) : t * World :=
  let w1 :=
    match m_commands p with
    | [] => w
    | _ :: _ => emit (EvFanOut (spawn (heap w) (m_subscribers p))) w
    end in
  ClearBatch p w1.

Definition StartBlock (p : t) (w : World) : t * World :=
  DumpBatch (set_forced true p) (emit EvStartBlock w).

Definition FinishBlock (p : t) (w : World) : t * World :=
  DumpBatch (set_forced false p) (emit EvFinishBlock w).

Definition ProcessCommand (command : Command) (p : t) (w : World) : t * World :=
  let p1 := set_commands (m_commands p ++ [command]) p in
  let w1 := notify p1 (emit (EvSubmit command) w) in
  if negb (m_blockForced p1) && (m_bulkSize p1 <=? length (m_commands p1))
  then DumpBatch p1 w1
  else (p1, w1).

(** A null [shared_ptr] is [None]. *)
Definition subscribe (o : option nat) (p : t) : t :=
  match o with
  | Some s => set_subscribers (m_subscribers p ++ [s]) p
  | None => p
  end.

(** [remove_if] drops the entries whose [lock()] is the object [o]. *)
Definition unSubscribe (o : option nat) (p : t) (w : World) : t :=
  match o with
  | Some s =>
      set_subscribers
        (filter (fun e => ¬ (is_Some (heap w !! e) ∧ e = s)) (m_subscribers p))
        p
  | None => p
  end.

(** [~BatchCommandProcessor]. The loop erases from the vector it ranges
    over; the model makes one pass over the entries present when the loop
    starts. The loop calls no subscriber operation, and the vector is
    destroyed with the engine right after it: nothing that is logged depends
    on how the loop is read. *)
Definition destroy (p : t) (w : World) : t * World :=
  let '(p1, w1) := if m_blockForced p then (p, w) else DumpBatch p w in
  (fold_left
     (fun q e => match heap w1 !! e with
                 | Some _ => unSubscribe (Some e) q w1
                 | None => q
                 end)
     (m_subscribers p1) p1,
   w1).

(** Submitting a sequence of commands, one call each. *)
Definition submit_all (cs : list Command) (pw : t * World) : t * World :=
  fold_left (fun pw c => ProcessCommand c pw.1 pw.2) cs pw.

End BatchCommandProcessor.

(** ** The session *)

Module BatchConsoleInput.

Record t : Type := mk {
  m_blockDepth : Z;
  m_commandProcessor : option BatchCommandProcessor.t;
  m_output : list nat
}.

(** The constructor: the engine, then a [ReportWriter] and a
    [ConsoleOutput], both subscribed. *)
Definition create (bulkSize : nat) (w : World) : t * World :=
  let p0 := BatchCommandProcessor.create bulkSize in
  let '(r, w1) := make_shared Output.ReportWriter w in
  let '(c, w2) := make_shared Output.ConsoleOutput w1 in
  let m_output := [r; c] in
  let p := fold_left (fun q o => BatchCommandProcessor.subscribe (Some o) q)
                     m_output p0 in
  ({| m_blockDepth := 0%Z; m_commandProcessor := Some p; m_output := m_output |},
   w2).

Definition with_engine (d : Z) (s : t) (pw : BatchCommandProcessor.t * World)
  : t * World :=
  ({| m_blockDepth := d; m_commandProcessor := Some pw.1;
      m_output := m_output s |}, pw.2).

Definition with_depth (d : Z) (s : t) : t :=
  {| m_blockDepth := d; m_commandProcessor := m_commandProcessor s;
     m_output := m_output s |}.

Definition ProcessCommand (command : Command) (s : t) (w : World) : t * World :=
  match m_commandProcessor s with
  | Some p =>
      if String.eqb (text command) START_BLOCK then
        (* m_blockDepth++ == 0 *)
        let old := m_blockDepth s in
        if (old =? 0)%Z
        then with_engine (old + 1)%Z s (BatchCommandProcessor.StartBlock p w)
        else (with_depth (old + 1)%Z s, w)
      else if String.eqb (text command) END_BLOCK then
        (* --m_blockDepth == 0 *)
        let new := (m_blockDepth s - 1)%Z in
        if (new =? 0)%Z
        then with_engine new s (BatchCommandProcessor.FinishBlock p w)
        else (with_depth new s, w)
      else
        with_engine (m_blockDepth s) s
                    (BatchCommandProcessor.ProcessCommand command p w)
  | None => (s, w)
  end.

(** The implicit destructor: members go in reverse order of declaration,
    [m_output] first (its [shared_ptr]s are the only owners of the two
    subscribers), then [m_commandProcessor]. *)
Definition destroy (s : t) (w : World) : World :=
  let w1 := fold_left (fun w o => release o w) (m_output s) w in
  match m_commandProcessor s with
  | Some p => (BatchCommandProcessor.destroy p w1).2
  | None => w1
  end.

(** [async::receive] after the split: one call per line. *)
Definition run (commands : list Command) (sw : t * World) : t * World :=
  fold_left (fun sw c => ProcessCommand c sw.1 sw.2) commands sw.

(** [connect], the lines, [disconnect]. *)
Definition lifetime (bulkSize : nat) (commands : list Command) : World :=
  let sw := run commands (create bulkSize empty_world) in
  destroy sw.1 sw.2.

End BatchConsoleInput.

(** ** The entry points of [async.cxx] *)

Module async.

(** [boost::algorithm::is_any_of("\n")]. *)
Definition is_separator (c : Ascii.ascii) : bool :=
  Ascii.eqb c (Ascii.ascii_of_nat 10).

(** [boost::algorithm::split] with [token_compress_on]: the pieces between
    the maximal runs of separators, the piece before the first run and the
    piece after the last one included even when they are empty. [token] is
    the piece being read; [after_sep] says that the previous character was a
    separator. (Releases of the library differ on the empty input, one token
    or none; the [std::remove] that follows erases the difference.) *)
Fixpoint split (data : string) (token : string) (after_sep : bool)
  : list string :=
  match data with
  | EmptyString => [token]
  | String c rest =>
      if is_separator c then
        if after_sep then split rest EmptyString true
        else token :: split rest EmptyString true
      else split rest (token +:+ String c EmptyString) false
  end.

(** The vector [parts] of [receive] after the erase-remove of the empty
    strings. *)
Definition parts (data : string) : list string :=
  List.filter (fun t => negb (String.eqb t EmptyString))
              (split data EmptyString false).

(** A handle is a pointer to a session; the null pointer is [None]. *)
Definition connect (bulk : nat) (w : World)
  : option BatchConsoleInput.t * World :=
  (Some (BatchConsoleInput.create bulk w).1, (BatchConsoleInput.create bulk w).2).

(** [data] is the text before the terminating NUL; the source does not use
    its third argument. [now i] is what the clock returns when the command of
    part [i] is built. *)
Definition receive (now : nat -> Z) (handle : option BatchConsoleInput.t)
    (data : string) (size : nat) (w : World)
  : option BatchConsoleInput.t * World :=
  let commands := imap (fun i part => mkCommand part (now i)) (parts data) in
  match handle with
  | Some h =>
      (Some (BatchConsoleInput.run commands (h, w)).1,
       (BatchConsoleInput.run commands (h, w)).2)
  | None => (None, w)
  end.

Definition disconnect (handle : option BatchConsoleInput.t) (w : World) : World :=
  match handle with
  | Some h => BatchConsoleInput.destroy h w
  | None => w
  end.

End async.

(** ** Vocabulary of the statements *)

(** The registry entries whose [lock()] succeeds, in registry order. *)
Definition live (h : gmap nat Output.t) (subs : list nat) : list nat :=
  omap (fun s => (fun _ => s) <$> h !! s) subs.

(** What one run of [notify] logs. *)
Definition notifications (snapshot : list Command) (h : gmap nat Output.t)
    (subs : list nat) : list Event :=
  (fun s => EvUpdate s snapshot) <$> live h subs.

(** What one run of [DumpBatch] logs. *)
Definition dump_events (pending : list Command) (h : gmap nat Output.t)
    (subs : list nat) : list Event :=
  match pending with
  | [] => []
  | _ :: _ => [EvFanOut (BatchCommandProcessor.spawn h subs)]
  end ++ notifications [] h subs.

(** Every live registry entry holds the engine's pending batch. *)
Definition synced (p : BatchCommandProcessor.t) (h : gmap nat Output.t) : Prop :=
  forall s o, s ∈ BatchCommandProcessor.m_subscribers p -> h !! s = Some o ->
    Output.m_commands o = BatchCommandProcessor.m_commands p.

Definition is_open (c : Command) : bool := String.eqb (text c) START_BLOCK.
Definition is_close (c : Command) : bool := String.eqb (text c) END_BLOCK.
Definition passthrough (c : Command) : bool := negb (is_open c) && negb (is_close c).

(** [nested k body]: with [k] blocks open, [body] never closes more than it
    has opened and ends with none of them open. *)
Fixpoint nested (k : nat) (body : list Command) : bool :=
  match body with
  | [] => Nat.eqb k 0
  | c :: rest =>
      if is_open c then nested (S k) rest
      else if is_close c then
        match k with
        | O => false
        | S k' => nested k' rest
        end
      else nested k rest
  end.

(** *** The session in closed form

    The session registers object 0 (the [ReportWriter]) and object 1 (the
    [ConsoleOutput]) before any line is processed, and nothing else ever
    touches the registry or the two objects. Its reachable states are
    therefore determined by the depth and the pending batch, and what a line
    logs can be written down directly; [wired_line_refined] and
    [wired_lines_refined] prove that [BatchConsoleInput.ProcessCommand] and
    [BatchConsoleInput.run] do exactly this. *)

Definition wired_engine (n : nat) (d : Z) (pending : list Command)
  : BatchCommandProcessor.t :=
  {| BatchCommandProcessor.m_bulkSize := n;
     BatchCommandProcessor.m_blockForced := (0 <? d)%Z;
     BatchCommandProcessor.m_commands := pending;
     BatchCommandProcessor.m_subscribers := [0; 1] |}.

Definition wired_session (n : nat) (d : Z) (pending : list Command)
  : BatchConsoleInput.t :=
  {| BatchConsoleInput.m_blockDepth := d;
     BatchConsoleInput.m_commandProcessor := Some (wired_engine n d pending);
     BatchConsoleInput.m_output := [0; 1] |}.

Definition wired_heap (h : gmap nat Output.t) (pending : list Command) : Prop :=
  h !! 0 = Some (Output.mk Output.ReportWriter pending)
  /\ h !! 1 = Some (Output.mk Output.ConsoleOutput pending).

Definition wired_units (b : list Command) : list FlushUnit :=
  [ mkUnit 0 b (Output.ProcessCommand (Output.mk Output.ReportWriter b));
    mkUnit 1 b (Output.ProcessCommand (Output.mk Output.ConsoleOutput b)) ].

Definition wired_updates (b : list Command) : list Event :=
  [EvUpdate 0 b; EvUpdate 1 b].

Definition wired_flush (b : list Command) : list Event :=
  match b with
  | [] => []
  | _ :: _ => [EvFanOut (wired_units b)]
  end ++ wired_updates [].

Definition wired_line (n : nat) (c : Command) (st : Z * list Command)
  : (Z * list Command) * list Event :=
  let d := st.1 in
  let pending := st.2 in
  if is_open c then
    if (d =? 0)%Z then ((d + 1, []), EvStartBlock :: wired_flush pending)%Z
    else ((d + 1, pending), [])%Z
  else if is_close c then
    if (d - 1 =? 0)%Z then ((d - 1, []), EvFinishBlock :: wired_flush pending)%Z
    else ((d - 1, pending), [])%Z
  else
    let snap := pending ++ [c] in
    if negb (0 <? d)%Z && (n <=? length snap)
    then ((d, []), EvSubmit c :: wired_updates snap ++ wired_flush snap)
    else ((d, snap), EvSubmit c :: wired_updates snap).

Fixpoint wired_lines (n : nat) (cs : list Command) (st : Z * list Command)
  : (Z * list Command) * list Event :=
  match cs with
  | [] => (st, [])
  | c :: rest =>
      let r1 := wired_line n c st in
      let r2 := wired_lines n rest r1.1 in
      (r2.1, r1.2 ++ r2.2)
  end.

(** A thread of a fan-out whose flush action stays within its snapshot. *)
Definition unit_in_bounds (u : FlushUnit) : Prop :=
  unit_batch u <> [] /\ unit_effect u <> IndexOutOfRange.

(** The calls of [StartBlock] and [FinishBlock] in a log, in order. *)
Inductive HoldCall : Type := StartHold | EndHold.

Definition hold_calls (l : list Event) : list HoldCall :=
  omap (fun e => match e with
                 | EvStartBlock => Some StartHold
                 | EvFinishBlock => Some EndHold
                 | _ => None
                 end) l.

(** The reading of "no flush strictly inside the pair, and one flush at its
    close marker exactly when commands were submitted inside", for the marker
    pair [o], [c] around [body] after the lines [pre]. *)
Definition block_flushes_at_close (n : nat) (pre : list Command) (o : Command)
    (body : list Command) (c : Command) : Prop :=
  let init := BatchConsoleInput.create n empty_world in
  let inside := List.filter passthrough body in
  let at_open := log (BatchConsoleInput.run (pre ++ [o]) init).2 in
  let before_close := log (BatchConsoleInput.run (pre ++ [o] ++ body) init).2 in
  let at_close :=
    log (BatchConsoleInput.run (pre ++ [o] ++ body ++ [c]) init).2 in
  fanouts before_close = fanouts at_open
  /\ fanouts at_close =
       fanouts before_close
       ++ match inside with [] => [] | _ :: _ => [wired_units inside] end.

(** The reading of "only the outer pair triggers the hold transitions, and
    flush happens once" for the four lines [o1], [o2], [c1], [c2]. *)
Definition nested_markers_flush_once (n : nat) (o1 o2 c1 c2 : Command) : Prop :=
  let init := BatchConsoleInput.create n empty_world in
  let l := log (BatchConsoleInput.run [o1; o2; c1; c2] init).2 in
  hold_calls (log (BatchConsoleInput.run [o1] init).2) = [StartHold]
  /\ hold_calls (log (BatchConsoleInput.run [o1; o2; c1] init).2) = [StartHold]
  /\ hold_calls l = [StartHold; EndHold]
  /\ length (fanouts l) = 1.

(** An engine with threshold [n] on which the objects [subs] have been
    subscribed, in a world whose heap is [h]; the commands [cs] submitted to
    it; its destruction after that. *)
Definition engine_with (n : nat) (subs : list nat) : BatchCommandProcessor.t :=
  fold_left (fun q o => BatchCommandProcessor.subscribe (Some o) q) subs
            (BatchCommandProcessor.create n).

Definition world_with (h : gmap nat Output.t) : World :=
  {| heap := h; next := 0; log := [] |}.

Definition threshold_run (n : nat) (subs : list nat) (h : gmap nat Output.t)
    (cs : list Command) : BatchCommandProcessor.t * World :=
  BatchCommandProcessor.submit_all cs (engine_with n subs, world_with h).

Definition threshold_lifetime (n : nat) (subs : list nat)
    (h : gmap nat Output.t) (cs : list Command) : World :=
  (BatchCommandProcessor.destroy (threshold_run n subs h cs).1
                                 (threshold_run n subs h cs).2).2.

(** The reading of "at least one flush occurs, and the flushed batches put
    together are the input", for subscriber [s] over the life of the engine. *)
Definition threshold_flushes_everything (n : nat) (subs : list nat)
    (h : gmap nat Output.t) (cs : list Command) (s : nat) : Prop :=
  (n <= length cs)%nat ->
  flushed s (log (threshold_lifetime n subs h cs)) <> []
  /\ concat (flushed s (log (threshold_lifetime n subs h cs))) = cs.

(** The reading of "flush of an empty batch does nothing": the log is left
    as it was. *)
Definition flush_of_empty_is_silent (p : BatchCommandProcessor.t) (w : World)
  : Prop :=
  BatchCommandProcessor.m_commands p = [] ->
  log (BatchCommandProcessor.DumpBatch p w).2 = log w.

(** *** Vocabulary of the further properties *)

(** No character of [s] is a separator of [async::receive]. *)
Fixpoint separator_free (s : string) : bool :=
  match s with
  | EmptyString => true
  | String c rest => negb (async.is_separator c) && separator_free rest
  end.

(** A line as [async::receive] hands it on: not empty, no separator. *)
Definition is_line (s : string) : Prop :=
  s <> EmptyString /\ separator_free s = true.

(** [l] without its leading empty strings. *)
Fixpoint drop_empty (l : list string) : list string :=
  match l with
  | [] => []
  | t :: rest => if String.eqb t EmptyString then drop_empty rest else l
  end.

(** Open markers minus close markers. *)
Fixpoint net_depth (cs : list Command) : Z :=
  match cs with
  | [] => 0%Z
  | c :: rest =>
      ((if is_open c then 1 else if is_close c then -1 else 0)
       + net_depth rest)%Z
  end.

(** The erase-remove of the empty strings in [async::receive]. *)
Definition nonempty (l : list string) : list string :=
  List.filter (fun t => negb (String.eqb t EmptyString)) l.

(** The separator of [async::receive] as a string. *)
Definition newline : string := String (Ascii.ascii_of_nat 10) EmptyString.

(** From [w] to [w'] no object but those of [subs] changes, and none
    changes class, appears or disappears. *)
Definition keeps_objects (subs : list nat) (w w' : World) : Prop :=
  forall s,
    (s ∉ subs -> heap w' !! s = heap w !! s)
    /\ Output.dyn <$> heap w' !! s = Output.dyn <$> heap w !! s.

Definition cmd (s : string) : Command := mkCommand s 0%Z.

(** * Facts about the engine *)

Ltac elem_cases :=
  repeat match goal with
         | |- context [decide (?x ∈ ?l)] => destruct (decide (x ∈ l))
         end;
  try reflexivity;
  try (exfalso; set_unfold; intuition congruence).

Section Engine.
Import BatchCommandProcessor.

Lemma live_nil h : live h [] = [].
Proof. reflexivity. Qed.

Lemma live_cons h s subs :
  live h (s :: subs) =
  match h !! s with Some _ => s :: live h subs | None => live h subs end.
Proof. unfold live. simpl. destruct (h !! s); reflexivity. Qed.

Lemma live_ext h h' subs :
  (forall s, s ∈ subs -> is_Some (h' !! s) <-> is_Some (h !! s)) ->
  live h' subs = live h subs.
Proof.
  induction subs as [|a subs IH]; intros E; [reflexivity|].
  rewrite !live_cons, IH.
  - assert (Ha : is_Some (h' !! a) <-> is_Some (h !! a)) by (apply E; left).
    destruct (h' !! a) as [x|] eqn:E1, (h !! a) as [y|] eqn:E2; try reflexivity.
    + exfalso. destruct Ha as [Ha _]. destruct Ha as [? ?]; [eauto|discriminate].
    + exfalso. destruct Ha as [_ Ha]. destruct Ha as [? ?]; [eauto|discriminate].
  - intros s Hs. apply E. right. exact Hs.
Qed.

Lemma spawn_cons h s subs :
  spawn h (s :: subs) =
  match h !! s with
  | Some o => mkUnit s (Output.m_commands o) (Output.ProcessCommand o)
              :: spawn h subs
  | None => spawn h subs
  end.
Proof. unfold spawn. simpl. destruct (h !! s); reflexivity. Qed.

Lemma spawn_subs h subs : unit_sub <$> spawn h subs = live h subs.
Proof.
  induction subs as [|a subs IH]; [reflexivity|].
  rewrite live_cons, spawn_cons.
  destruct (h !! a); [rewrite fmap_cons, IH|rewrite IH]; reflexivity.
Qed.

(** The loop of [notify]: one [update] per live entry, in registry order;
    every registered object that is alive ends up holding the snapshot, and
    nothing else on the heap changes. *)
Lemma notify_loop snap subs w :
  let w' := fold_left (notify_one snap) subs w in
  log w' = log w ++ notifications snap (heap w) subs
  /\ next w' = next w
  /\ forall s, heap w' !! s =
       if decide (s ∈ subs) then Output.update snap <$> heap w !! s
       else heap w !! s.
Proof.
  revert w. induction subs as [|a subs IH]; intros w; simpl.
  - unfold notifications. rewrite live_nil. simpl. rewrite app_nil_r.
    split; [reflexivity|]. split; [reflexivity|].
    intros s. destruct (decide (s ∈ [])) as [H|H]; [inversion H|reflexivity].
  - destruct (IH (notify_one snap w a)) as (Hl & Hn & Hh).
    unfold notifications in *. rewrite live_cons.
    unfold notify_one in *.
    destruct (heap w !! a) as [o|] eqn:Ea; simpl in *.
    + rewrite Hl, Hn. split; [|split; [reflexivity|]].
      * rewrite <- app_assoc. simpl. f_equal. f_equal. f_equal.
        apply live_ext. intros s _.
        destruct (decide (a = s)) as [->|Hne].
        -- rewrite lookup_insert_eq, Ea. split; eauto.
        -- rewrite lookup_insert_ne by exact Hne. reflexivity.
      * intros s. rewrite Hh.
        destruct (decide (a = s)) as [->|Hne].
        -- rewrite lookup_insert_eq, Ea. elem_cases.
        -- rewrite lookup_insert_ne by exact Hne. elem_cases.
    + rewrite Hl, Hn. split; [reflexivity|]. split; [reflexivity|].
      intros s. rewrite Hh. elem_cases.
      assert (s = a) as -> by (set_unfold; intuition congruence). rewrite Ea. reflexivity.
Qed.

Lemma notify_spec p w :
  log (notify p w) = log w ++ notifications (m_commands p) (heap w) (m_subscribers p)
  /\ next (notify p w) = next w
  /\ forall s, heap (notify p w) !! s =
       if decide (s ∈ m_subscribers p)
       then Output.update (m_commands p) <$> heap w !! s
       else heap w !! s.
Proof. apply notify_loop. Qed.

Lemma live_notify p w subs : live (heap (notify p w)) subs = live (heap w) subs.
Proof.
  apply live_ext. intros s _.
  destruct (notify_spec p w) as (_ & _ & Hh). rewrite Hh.
  destruct (decide (s ∈ m_subscribers p)); [|reflexivity].
  destruct (heap w !! s); simpl; split; intros [? ?]; try discriminate; eauto.
Qed.

Lemma dump_events_nil h subs :
  dump_events [] h subs = notifications [] h subs.
Proof. reflexivity. Qed.

Lemma dump_events_cons pending h subs :
  pending <> [] ->
  dump_events pending h subs =
  EvFanOut (spawn h subs) :: notifications [] h subs.
Proof. destruct pending; [congruence|reflexivity]. Qed.

(** [DumpBatch] in closed form. *)
Lemma DumpBatch_spec p w :
  (DumpBatch p w).1 = set_commands [] p
  /\ log (DumpBatch p w).2 =
       log w ++ dump_events (m_commands p) (heap w) (m_subscribers p)
  /\ next (DumpBatch p w).2 = next w
  /\ forall s, heap (DumpBatch p w).2 !! s =
       if decide (s ∈ m_subscribers p) then Output.update [] <$> heap w !! s
       else heap w !! s.
Proof.
  unfold DumpBatch, ClearBatch, dump_events. cbn [fst snd].
  split; [reflexivity|].
  destruct (m_commands p) as [|c cs];
    match goal with
    | |- context [notify ?q ?v] => destruct (notify_spec q v) as (Hl & Hn & Hh)
    end; cbn [m_commands m_subscribers set_commands emit heap log next] in *.
  - rewrite Hl, Hn. split; [reflexivity|]. split; [reflexivity|]. exact Hh.
  - rewrite Hl, Hn, <- app_assoc. split; [reflexivity|]. split; [reflexivity|].
    exact Hh.
Qed.

(** The threads spawned right after a [notify] all hold the notified
    snapshot. *)
Lemma spawn_after_update snap (h h' : gmap nat Output.t) subs :
  (forall s, s ∈ subs -> h' !! s = Output.update snap <$> h !! s) ->
  spawn h' subs = spawn (Output.update snap <$> h) subs.
Proof.
  induction subs as [|a subs IH]; intros E; [reflexivity|].
  rewrite !spawn_cons, lookup_fmap, (E a) by left.
  rewrite IH by (intros s Hs; apply E; right; exact Hs). reflexivity.
Qed.

Lemma live_fmap (f : Output.t -> Output.t) (h : gmap nat Output.t) subs :
  live (f <$> h) subs = live h subs.
Proof.
  apply live_ext. intros s _. rewrite lookup_fmap.
  destruct (h !! s); simpl; split; intros [? ?]; try discriminate; eauto.
Qed.

(** [ProcessCommand] in closed form. *)
Lemma ProcessCommand_spec c p w :
  let snap := m_commands p ++ [c] in
  let h1 := Output.update snap <$> heap w in
  let flush := negb (m_blockForced p) && (m_bulkSize p <=? length snap) in
  (ProcessCommand c p w).1 = set_commands (if flush then [] else snap) p
  /\ log (ProcessCommand c p w).2 =
       log w ++ EvSubmit c :: notifications snap (heap w) (m_subscribers p)
             ++ (if flush
                 then EvFanOut (spawn h1 (m_subscribers p))
                      :: notifications [] (heap w) (m_subscribers p)
                 else [])
  /\ next (ProcessCommand c p w).2 = next w
  /\ forall s, heap (ProcessCommand c p w).2 !! s =
       if decide (s ∈ m_subscribers p)
       then Output.update (if flush then [] else snap) <$> heap w !! s
       else heap w !! s.
Proof.
  intros snap h1 flush. unfold ProcessCommand.
  set (p1 := set_commands (m_commands p ++ [c]) p).
  set (w0 := emit (EvSubmit c) w).
  destruct (notify_spec p1 w0) as (Hl & Hn & Hh).
  cbn [m_commands m_subscribers m_blockForced m_bulkSize set_commands p1
       emit heap log next w0] in *.
  fold snap in Hl, Hh |- *. fold flush.
  destruct flush.
  - destruct (DumpBatch_spec p1 (notify p1 w0)) as (D1 & Dl & Dn & Dh).
    rewrite D1, Dl, Dn, Hl, Hn.
    cbn [m_commands m_subscribers m_blockForced m_bulkSize set_commands p1] in *.
    split; [reflexivity|]. split; [|split; [reflexivity|]].
    + rewrite dump_events_cons
        by (destruct (m_commands p); discriminate).
      unfold notifications. rewrite live_notify.
      change (heap w0) with (heap w).
      rewrite (spawn_after_update snap (heap w)).
      * rewrite <- !app_assoc. reflexivity.
      * intros s Hs'. rewrite Hh.
        destruct (decide (s ∈ m_subscribers p)); [reflexivity|contradiction].
    + intros s. rewrite Dh, Hh.
      destruct (decide (s ∈ m_subscribers p)); [|reflexivity].
      destruct (heap w !! s); reflexivity.
  - cbn [fst snd]. rewrite Hl, Hn, app_nil_r, <- app_assoc.
    split; [reflexivity|]. split; [reflexivity|]. split; [reflexivity|]. exact Hh.
Qed.

(** *** Reading logs *)

Lemma fanouts_app l1 l2 : fanouts (l1 ++ l2) = fanouts l1 ++ fanouts l2.
Proof. apply omap_app. Qed.

Lemma fanouts_notifications snap h subs : fanouts (notifications snap h subs) = [].
Proof.
  unfold notifications. induction (live h subs) as [|a l IH]; [reflexivity|].
  rewrite fmap_cons. exact IH.
Qed.

Lemma flushed_app s l1 l2 : flushed s (l1 ++ l2) = flushed s l1 ++ flushed s l2.
Proof.
  unfold flushed. rewrite fanouts_app, concat_app, filter_app, fmap_app.
  reflexivity.
Qed.

Lemma flushed_no_fanout s l : fanouts l = [] -> flushed s l = [].
Proof. unfold flushed. intros ->. reflexivity. Qed.

Lemma fanouts_dump_events pending h subs :
  fanouts (dump_events pending h subs) =
  match pending with [] => [] | _ :: _ => [spawn h subs] end.
Proof.
  unfold dump_events. rewrite fanouts_app, fanouts_notifications.
  destruct pending; reflexivity.
Qed.

(** Under [synced], every thread of a fan-out flushes the pending batch. *)
Lemma spawn_synced p h :
  synced p h ->
  Forall (fun u => unit_batch u = m_commands p) (spawn h (m_subscribers p)).
Proof.
  unfold synced. generalize (m_subscribers p) as subs.
  induction subs as [|a subs IH]; intros S; [constructor|].
  rewrite spawn_cons. destruct (h !! a) as [o|] eqn:E.
  - constructor.
    + simpl. apply (S a); [left|exact E].
    + apply IH. intros s o' Hs. apply S. right. exact Hs.
  - apply IH. intros s o' Hs. apply S. right. exact Hs.
Qed.

Lemma set_commands_id p : m_commands p = [] -> set_commands [] p = p.
Proof. destruct p; simpl; intros ->; reflexivity. Qed.

(** *** The flush routine *)

(** C2, as amended: flushing an empty pending batch invokes no subscriber
    flush action and leaves the engine as it was, but it is not silent: the
    batch is cleared all the same and every live subscriber is notified once
    with the empty snapshot. *)
Theorem C2_flush_of_empty_batch p w :
  m_commands p = [] ->
  (DumpBatch p w).1 = p
  /\ fanouts (log (DumpBatch p w).2) = fanouts (log w)
  /\ log (DumpBatch p w).2 =
       log w ++ ((fun s => EvUpdate s []) <$> live (heap w) (m_subscribers p)).
Proof.
  intros E. destruct (DumpBatch_spec p w) as (H1 & Hl & _).
  rewrite H1, Hl, E, dump_events_nil, fanouts_app, fanouts_notifications, app_nil_r.
  split; [apply set_commands_id; exact E|]. split; reflexivity.
Qed.

(** C5: a flush of a non-empty pending batch spawns exactly one thread per
    live registry entry, in registry order, each running that subscriber's
    flush action on the snapshot it holds; the fan-out is complete (all
    threads joined) before anything else is logged; after it the pending batch
    is empty and every live subscriber has been notified with the empty
    snapshot, which it then holds. *)
Theorem C5_flush_of_nonempty_batch p w :
  m_commands p <> [] ->
  let units := spawn (heap w) (m_subscribers p) in
  log (DumpBatch p w).2 =
    log w ++ [EvFanOut units]
          ++ ((fun s => EvUpdate s []) <$> live (heap w) (m_subscribers p))
  /\ unit_sub <$> units = live (heap w) (m_subscribers p)
  /\ (NoDup (m_subscribers p) -> NoDup (unit_sub <$> units))
  /\ (forall u, u ∈ units ->
        exists o, heap w !! unit_sub u = Some o
                  /\ unit_batch u = Output.m_commands o
                  /\ unit_effect u = Output.ProcessCommand o)
  /\ m_commands (DumpBatch p w).1 = []
  /\ (forall s o, s ∈ m_subscribers p -> heap w !! s = Some o ->
        heap (DumpBatch p w).2 !! s = Some (Output.update [] o)).
Proof.
  intros NE units. destruct (DumpBatch_spec p w) as (H1 & Hl & _ & Hh).
  rewrite H1, Hl, dump_events_cons by exact NE.
  split; [reflexivity|]. split; [apply spawn_subs|].
  split.
  { intros ND. unfold units. rewrite spawn_subs. unfold live.
    revert ND. generalize (m_subscribers p) as subs.
    induction subs as [|a subs IH]; intros ND; [constructor|].
    inversion ND as [|? ? Ha ND']; subst. simpl.
    destruct (heap w !! a); simpl; [|apply IH; exact ND'].
    constructor; [|apply IH; exact ND'].
    intros Hin. apply Ha. apply list_elem_of_omap in Hin.
    destruct Hin as (x & Hx & Hy). destruct (heap w !! x); simpl in Hy; [|discriminate].
    injection Hy as ->. exact Hx. }
  split.
  { intros u Hu. unfold units, spawn in Hu. apply list_elem_of_omap in Hu.
    destruct Hu as (x & _ & Hy). destruct (heap w !! x) as [o|] eqn:E; simpl in Hy;
      [|discriminate].
    injection Hy as <-. exists o. simpl. auto. }
  split; [reflexivity|].
  intros s o Hs E. rewrite Hh, E.
  destruct (decide (s ∈ m_subscribers p)); [reflexivity|contradiction].
Qed.

Lemma spawn_updated snap (h : gmap nat Output.t) subs :
  Forall (fun u => unit_batch u = snap) (spawn (Output.update snap <$> h) subs).
Proof.
  induction subs as [|a subs IH]; [constructor|].
  rewrite spawn_cons, lookup_fmap.
  destruct (h !! a); simpl; [constructor; [reflexivity|]|]; exact IH.
Qed.

(** *** Submission *)

(** C4: [ProcessCommand] logs, in this order, the updates of every live
    registry entry with the pending batch to which the command has just been
    appended, and then, only when forced-hold is off and that batch has reached
    the threshold, one fan-out in which every live entry flushes that same
    batch, followed by the updates with the empty batch. The pending batch
    is left empty after a flush and is the extended batch otherwise. *)
Theorem C4_submit_appends_notifies_then_flushes c p w :
  let snap := m_commands p ++ [c] in
  let flush := negb (m_blockForced p) && (m_bulkSize p <=? length snap) in
  let units := spawn (Output.update snap <$> heap w) (m_subscribers p) in
  log (ProcessCommand c p w).2 =
    log w ++ [EvSubmit c]
          ++ ((fun s => EvUpdate s snap) <$> live (heap w) (m_subscribers p))
          ++ (if flush
              then [EvFanOut units]
                   ++ ((fun s => EvUpdate s []) <$> live (heap w) (m_subscribers p))
              else [])
  /\ unit_sub <$> units = live (heap w) (m_subscribers p)
  /\ Forall (fun u => unit_batch u = snap) units
  /\ m_commands (ProcessCommand c p w).1 = (if flush then [] else snap)
  /\ m_blockForced (ProcessCommand c p w).1 = m_blockForced p
  /\ (forall s o, s ∈ m_subscribers p -> heap w !! s = Some o ->
        heap (ProcessCommand c p w).2 !! s =
        Some (Output.update (if flush then [] else snap) o)).
Proof.
  intros snap flush units.
  destruct (ProcessCommand_spec c p w) as (H1 & Hl & _ & Hh).
  fold snap flush in H1, Hl, Hh. rewrite H1, Hl.
  split; [reflexivity|].
  split; [unfold units; rewrite spawn_subs; apply live_fmap|].
  split; [apply spawn_updated|].
  split; [reflexivity|]. split; [reflexivity|].
  intros s o Hs E. rewrite Hh, E.
  destruct (decide (s ∈ m_subscribers p)); [reflexivity|contradiction].
Qed.

(** *** Hold transitions *)

(** C7: [StartBlock] sets forced-hold and [FinishBlock] clears it; both then
    flush: a non-empty pending batch goes to one fan-out over the live
    entries, whatever its size and the threshold, and the pending batch is
    empty afterwards. When the subscribers hold the pending batch (they do
    after any notification), that batch is what each of them flushes. *)
Theorem C7_hold_transitions_flush p w :
  let flush_log :=
    match m_commands p with
    | [] => []
    | _ :: _ => [EvFanOut (spawn (heap w) (m_subscribers p))]
    end ++ ((fun s => EvUpdate s []) <$> live (heap w) (m_subscribers p)) in
  (m_blockForced (StartBlock p w).1 = true
   /\ m_commands (StartBlock p w).1 = []
   /\ log (StartBlock p w).2 = log w ++ [EvStartBlock] ++ flush_log)
  /\ (m_blockForced (FinishBlock p w).1 = false
      /\ m_commands (FinishBlock p w).1 = []
      /\ log (FinishBlock p w).2 = log w ++ [EvFinishBlock] ++ flush_log)
  /\ unit_sub <$> spawn (heap w) (m_subscribers p)
       = live (heap w) (m_subscribers p)
  /\ (synced p (heap w) ->
       Forall (fun u => unit_batch u = m_commands p)
              (spawn (heap w) (m_subscribers p))).
Proof.
  intros flush_log. unfold StartBlock, FinishBlock.
  destruct (DumpBatch_spec (set_forced true p) (emit EvStartBlock w))
    as (S1 & Sl & _).
  destruct (DumpBatch_spec (set_forced false p) (emit EvFinishBlock w))
    as (F1 & Fl & _).
  rewrite S1, Sl, F1, Fl.
  cbn [m_commands m_subscribers m_blockForced set_forced set_commands
       emit heap log].
  rewrite <- !app_assoc.
  repeat split; try reflexivity.
  - apply spawn_subs.
  - apply spawn_synced.
Qed.

(** *** Teardown *)

(** C8: the destructor of the engine. With forced-hold off it runs the flush
    routine once: a non-empty pending batch goes to exactly one fan-out, in
    which every registry entry alive at that moment takes part (the registry
    is still complete then), each flushing the pending batch when it holds it.
    With forced-hold on nothing is logged and no subscriber is touched: the
    pending commands are gone with the engine. The loop that drops the
    handles comes last and is seen by no subscriber. *)
Theorem C8_engine_teardown p w :
  log (destroy p w).2 =
    log w ++ (if m_blockForced p then []
              else match m_commands p with
                   | [] => []
                   | _ :: _ => [EvFanOut (spawn (heap w) (m_subscribers p))]
                   end
                   ++ ((fun s => EvUpdate s []) <$> live (heap w) (m_subscribers p)))
  /\ fanouts (log (destroy p w).2) =
       fanouts (log w)
       ++ (if m_blockForced p then []
           else match m_commands p with
                | [] => []
                | _ :: _ => [spawn (heap w) (m_subscribers p)]
                end)
  /\ unit_sub <$> spawn (heap w) (m_subscribers p)
       = live (heap w) (m_subscribers p)
  /\ (synced p (heap w) ->
       Forall (fun u => unit_batch u = m_commands p)
              (spawn (heap w) (m_subscribers p)))
  /\ (destroy p w).2 = (if m_blockForced p then w else (DumpBatch p w).2).
Proof.
  unfold destroy.
  destruct (m_blockForced p) eqn:Ef.
  - cbn [fst snd]. rewrite !app_nil_r.
    repeat split; try reflexivity.
    + apply spawn_subs.
    + apply spawn_synced.
  - destruct (DumpBatch_spec p w) as (D1 & Dl & _ & Dh).
    destruct (DumpBatch p w) as [p1 w1]. cbn [fst snd] in *.
    split; [exact Dl|].
    split; [rewrite Dl, fanouts_app, fanouts_dump_events; reflexivity|].
    split; [apply spawn_subs|].
    split; [apply spawn_synced|reflexivity].
Qed.

End Engine.

(** * Facts about the session *)

Section Session.
Import BatchCommandProcessor.

Lemma wired_live h pending : wired_heap h pending -> live h [0; 1] = [0; 1].
Proof. intros [H0 H1]. unfold live. simpl. rewrite H0, H1. reflexivity. Qed.

Lemma wired_spawn h pending :
  wired_heap h pending -> spawn h [0; 1] = wired_units pending.
Proof. intros [H0 H1]. unfold spawn. simpl. rewrite H0, H1. reflexivity. Qed.

Lemma wired_spawn_updated h pending snap :
  wired_heap h pending ->
  spawn (Output.update snap <$> h) [0; 1] = wired_units snap.
Proof.
  intros [H0 H1]. unfold spawn. simpl. rewrite !lookup_fmap, H0, H1. reflexivity.
Qed.

Lemma wired_dump_events h pending :
  wired_heap h pending -> dump_events pending h [0; 1] = wired_flush pending.
Proof.
  intros H. unfold dump_events, wired_flush, notifications.
  rewrite (wired_live h pending H), (wired_spawn h pending H). reflexivity.
Qed.

Lemma wired_heap_updated (h h' : gmap nat Output.t) pending snap :
  wired_heap h pending ->
  (forall s, h' !! s = if decide (s ∈ [0; 1]) then Output.update snap <$> h !! s
                       else h !! s) ->
  wired_heap h' snap.
Proof.
  intros [H0 H1] E. split; rewrite E.
  - destruct (decide (0 ∈ [0; 1])) as [_|N]; [rewrite H0; reflexivity|].
    exfalso. apply N. set_unfold. auto.
  - destruct (decide (1 ∈ [0; 1])) as [_|N]; [rewrite H1; reflexivity|].
    exfalso. apply N. set_unfold. auto.
Qed.

Lemma wired_session_eq n d pending b :
  b = (0 <? d)%Z ->
  {| BatchConsoleInput.m_blockDepth := d;
     BatchConsoleInput.m_commandProcessor :=
       Some {| m_bulkSize := n; m_blockForced := b; m_commands := pending;
               m_subscribers := [0; 1] |};
     BatchConsoleInput.m_output := [0; 1] |} = wired_session n d pending.
Proof. intros ->. reflexivity. Qed.

(** One line of input, in closed form. *)
Lemma wired_line_refined n c d pending w :
  wired_heap (heap w) pending ->
  let r := BatchConsoleInput.ProcessCommand c (wired_session n d pending) w in
  let a := wired_line n c (d, pending) in
  r.1 = wired_session n a.1.1 a.1.2
  /\ log r.2 = log w ++ a.2
  /\ wired_heap (heap r.2) a.1.2.
Proof.
  intros H. unfold BatchConsoleInput.ProcessCommand, wired_line.
  cbn [BatchConsoleInput.m_commandProcessor wired_session
       BatchConsoleInput.m_blockDepth fst snd].
  fold (is_open c). fold (is_close c).
  destruct (is_open c).
  { destruct (Z.eqb_spec d 0) as [->|Hd].
    - unfold StartBlock, BatchConsoleInput.with_engine.
      destruct (DumpBatch_spec (set_forced true (wired_engine n 0 pending))
                               (emit EvStartBlock w)) as (D1 & Dl & _ & Dh).
      cbn [fst snd]. rewrite D1, Dl.
      cbn [m_commands m_subscribers set_forced set_commands wired_engine
           emit heap log m_bulkSize m_blockForced] in *.
      rewrite (wired_dump_events _ _ H), <- app_assoc.
      split; [reflexivity|]. split; [reflexivity|].
      exact (wired_heap_updated _ _ _ _ H Dh).
    - cbn [fst snd]. rewrite app_nil_r.
      split; [|split; [reflexivity|exact H]].
      apply wired_session_eq.
      destruct (Z.ltb_spec 0 d), (Z.ltb_spec 0 (d + 1)); (reflexivity || lia). }
  destruct (is_close c).
  { destruct (Z.eqb_spec (d - 1) 0) as [E|Hd].
    - unfold FinishBlock, BatchConsoleInput.with_engine.
      destruct (DumpBatch_spec (set_forced false (wired_engine n d pending))
                               (emit EvFinishBlock w)) as (D1 & Dl & _ & Dh).
      cbn [fst snd]. rewrite D1, Dl.
      cbn [m_commands m_subscribers set_forced set_commands wired_engine
           emit heap log m_bulkSize m_blockForced] in *.
      rewrite (wired_dump_events _ _ H), <- app_assoc.
      split; [|split; [reflexivity|exact (wired_heap_updated _ _ _ _ H Dh)]].
      apply wired_session_eq. rewrite E. reflexivity.
    - cbn [fst snd]. rewrite app_nil_r.
      split; [|split; [reflexivity|exact H]].
      apply wired_session_eq.
      destruct (Z.ltb_spec 0 d), (Z.ltb_spec 0 (d - 1)); (reflexivity || lia). }
  unfold BatchConsoleInput.with_engine.
  destruct (ProcessCommand_spec c (wired_engine n d pending) w)
    as (P1 & Pl & _ & Ph).
  cbn [fst snd]. rewrite P1, Pl.
  cbn [m_commands m_subscribers set_forced set_commands wired_engine
       emit heap log m_bulkSize m_blockForced] in *.
  unfold notifications in *.
  rewrite (wired_live _ _ H), (wired_spawn_updated _ _ _ H).
  destruct (negb (0 <? d)%Z && (n <=? length (pending ++ [c]))) eqn:Ec;
    cbn [fst snd].
  - split; [reflexivity|].
    split; [|exact (wired_heap_updated _ _ _ _ H Ph)].
    unfold wired_flush, wired_updates.
    destruct (pending ++ [c]) eqn:Es; [destruct pending; discriminate|].
    reflexivity.
  - split; [reflexivity|].
    split; [|exact (wired_heap_updated _ _ _ _ H Ph)].
    rewrite app_nil_r. reflexivity.
Qed.

Lemma wired_lines_refined n cs d pending w :
  wired_heap (heap w) pending ->
  let r := BatchConsoleInput.run cs (wired_session n d pending, w) in
  let a := wired_lines n cs (d, pending) in
  r.1 = wired_session n a.1.1 a.1.2
  /\ log r.2 = log w ++ a.2
  /\ wired_heap (heap r.2) a.1.2.
Proof.
  revert d pending w. induction cs as [|c cs IH]; intros d pending w H.
  - simpl. rewrite app_nil_r. auto.
  - cbn [BatchConsoleInput.run fold_left wired_lines fst snd].
    destruct (wired_line_refined n c d pending w H) as (E1 & El & Eh).
    destruct (wired_line n c (d, pending)) as [[d1 p1] e1].
    destruct (BatchConsoleInput.ProcessCommand c (wired_session n d pending) w)
      as [s1 w1].
    cbn [fst snd] in *. subst s1.
    destruct (IH d1 p1 w1 Eh) as (F1 & Fl & Fh).
    unfold BatchConsoleInput.run in *.
    rewrite F1, Fl, El, <- app_assoc. auto.
Qed.

Lemma wired_create n :
  (BatchConsoleInput.create n empty_world).1 = wired_session n 0 []
  /\ log (BatchConsoleInput.create n empty_world).2 = []
  /\ wired_heap (heap (BatchConsoleInput.create n empty_world).2) [].
Proof. repeat split. Qed.

Lemma session_run n cs :
  let r := BatchConsoleInput.run cs (BatchConsoleInput.create n empty_world) in
  let a := wired_lines n cs (0%Z, []) in
  r.1 = wired_session n a.1.1 a.1.2
  /\ log r.2 = a.2
  /\ wired_heap (heap r.2) a.1.2.
Proof.
  destruct (wired_create n) as (C1 & Cl & Ch).
  destruct (BatchConsoleInput.create n empty_world) as [s0 w0].
  cbn [fst snd] in *. subst s0.
  destruct (wired_lines_refined n cs 0%Z [] w0 Ch) as (R1 & Rl & Rh).
  rewrite Cl in Rl. auto.
Qed.

Lemma wired_lines_app n l1 l2 st :
  wired_lines n (l1 ++ l2) st =
  ((wired_lines n l2 (wired_lines n l1 st).1).1,
   (wired_lines n l1 st).2 ++ (wired_lines n l2 (wired_lines n l1 st).1).2).
Proof.
  revert st. induction l1 as [|c l1 IH]; intros st.
  - simpl. destruct (wired_lines n l2 st); reflexivity.
  - cbn [app wired_lines fst snd]. rewrite IH. cbn [fst snd].
    rewrite app_assoc. reflexivity.
Qed.

(** The depth moves by one per marker at most: the [int] of the source cannot
    overflow on fewer than 2^31 lines. *)
Lemma wired_depth_bounded n cs d pending :
  (d - Z.of_nat (length cs) <= (wired_lines n cs (d, pending)).1.1
   <= d + Z.of_nat (length cs))%Z.
Proof.
  revert d pending. induction cs as [|c cs IH]; intros d pending.
  - simpl. lia.
  - cbn [wired_lines fst snd length].
    destruct (wired_line n c (d, pending)) as [[d1 p1] e1] eqn:E.
    cbn [fst snd]. specialize (IH d1 p1).
    assert (d - 1 <= d1 <= d + 1)%Z.
    { unfold wired_line in E. cbn [fst snd] in E.
      destruct (is_open c); [destruct (d =? 0)%Z; injection E; lia|].
      destruct (is_close c); [destruct (d - 1 =? 0)%Z; injection E; lia|].
      destruct (negb (0 <? d)%Z && (n <=? length (pending ++ [c])));
        injection E; lia. }
    lia.
Qed.

Lemma depth_bounded n cs :
  (Z.abs (BatchConsoleInput.m_blockDepth
            (BatchConsoleInput.run cs (BatchConsoleInput.create n empty_world)).1)
   <= Z.of_nat (length cs))%Z.
Proof.
  destruct (session_run n cs) as (R1 & _). rewrite R1.
  cbn [BatchConsoleInput.m_blockDepth wired_session].
  pose proof (wired_depth_bounded n cs 0%Z []). lia.
Qed.

(** *** An unmatched close marker *)

(** C1: what the code does with a close marker at depth 0. The depth becomes
    -1; nothing is logged (no flush, no hold change, no notification). The
    next open marker then only brings the depth back to 0: [StartBlock] is not
    called, so the block it opens is not held. With threshold 3 the lines
    [}], [{], a, b, c, d, [}] flush a, b, c by size inside the block, and the
    closing marker flushes nothing: d stays pending at depth -1. *)
Theorem C1_unmatched_close_underflows n :
  let init := BatchConsoleInput.create n empty_world in
  (BatchConsoleInput.m_blockDepth (BatchConsoleInput.run [cmd "}"] init).1
     = (-1)%Z
   /\ log (BatchConsoleInput.run [cmd "}"] init).2 = [])
  /\ (BatchConsoleInput.m_blockDepth
        (BatchConsoleInput.run [cmd "}"; cmd "{"] init).1 = 0%Z
      /\ log (BatchConsoleInput.run [cmd "}"; cmd "{"] init).2 = [])
  /\ (let r := BatchConsoleInput.run
                 (cmd <$> ["}"; "{"; "a"; "b"; "c"; "d"; "}"])
                 (BatchConsoleInput.create 3 empty_world) in
      fanouts (log r.2) = [wired_units (cmd <$> ["a"; "b"; "c"])]
      /\ hold_calls (log r.2) = []
      /\ BatchConsoleInput.m_blockDepth r.1 = (-1)%Z
      /\ (BatchCommandProcessor.m_commands
            <$> BatchConsoleInput.m_commandProcessor r.1) = Some [cmd "d"]).
Proof.
  intros init. unfold init.
  split; [|split].
  - destruct (session_run n [cmd "}"]) as (R1 & Rl & _).
    rewrite R1, Rl. split; reflexivity.
  - destruct (session_run n [cmd "}"; cmd "{"]) as (R1 & Rl & _).
    rewrite R1, Rl. split; reflexivity.
  - destruct (session_run 3 (cmd <$> ["}"; "{"; "a"; "b"; "c"; "d"; "}"]))
      as (R1 & Rl & _).
    rewrite R1, Rl. repeat split.
Qed.

(** *** Teardown of the session *)

Lemma destroy_log p w :
  log (destroy p w).2 =
  log w ++ (if m_blockForced p then []
            else dump_events (m_commands p) (heap w) (m_subscribers p)).
Proof.
  unfold destroy. destruct (m_blockForced p).
  - cbn [snd]. rewrite app_nil_r. reflexivity.
  - destruct (DumpBatch_spec p w) as (_ & Dl & _).
    destruct (DumpBatch p w) as [p1 w1]. exact Dl.
Qed.

(** By the time the destructor of the engine runs, the destructor of the
    session has already destroyed [m_output], and with it both subscribers:
    the final fan-out has no thread, and a pending batch reaches nobody. *)
Lemma wired_destroy n d pending w :
  log (BatchConsoleInput.destroy (wired_session n d pending) w) =
  log w ++ (if (0 <? d)%Z then []
            else match pending with [] => [] | _ :: _ => [EvFanOut []] end).
Proof.
  unfold BatchConsoleInput.destroy.
  cbn [BatchConsoleInput.m_output BatchConsoleInput.m_commandProcessor
       wired_session fold_left].
  rewrite destroy_log.
  cbn [m_blockForced m_commands m_subscribers wired_engine release heap log].
  destruct (0 <? d)%Z; [reflexivity|].
  unfold dump_events, notifications, live, spawn. simpl.
  rewrite lookup_delete_ne, !lookup_delete_eq by discriminate. simpl.
  rewrite app_nil_r. reflexivity.
Qed.

Lemma session_lifetime n cs :
  let a := wired_lines n cs (0%Z, []) in
  log (BatchConsoleInput.lifetime n cs) =
  a.2 ++ (if (0 <? a.1.1)%Z then []
          else match a.1.2 with [] => [] | _ :: _ => [EvFanOut []] end).
Proof.
  unfold BatchConsoleInput.lifetime.
  destruct (session_run n cs) as (R1 & Rl & _).
  rewrite R1, wired_destroy, Rl. reflexivity.
Qed.

(** The final batch of the scenario of the specification (threshold 3, lines
    a, b, c, d) is flushed by no subscriber when the session is deleted. *)
Lemma session_teardown_reaches_no_subscriber :
  let l := log (BatchConsoleInput.lifetime 3 (cmd <$> ["a"; "b"; "c"; "d"])) in
  fanouts l = [wired_units (cmd <$> ["a"; "b"; "c"]); []]
  /\ flushed 0 l = [cmd <$> ["a"; "b"; "c"]]
  /\ flushed 1 l = [cmd <$> ["a"; "b"; "c"]].
Proof. rewrite session_lifetime. repeat split. Qed.

(** *** The flush action of the report writer *)

Lemma wired_flush_in_bounds b :
  Forall (Forall unit_in_bounds) (fanouts (wired_flush b)).
Proof.
  destruct b as [|c b]; [constructor|].
  repeat constructor; simpl; discriminate.
Qed.

Lemma wired_line_in_bounds n c st :
  Forall (Forall unit_in_bounds) (fanouts (wired_line n c st).2).
Proof.
  unfold wired_line.
  destruct (is_open c).
  { destruct (st.1 =? 0)%Z; cbn [snd]; [apply wired_flush_in_bounds|constructor]. }
  destruct (is_close c).
  { destruct (st.1 - 1 =? 0)%Z; cbn [snd];
      [apply wired_flush_in_bounds|constructor]. }
  destruct (negb (0 <? st.1)%Z && (n <=? length (st.2 ++ [c]))); cbn [snd].
  - apply (wired_flush_in_bounds (st.2 ++ [c])).
  - constructor.
Qed.

Lemma wired_lines_in_bounds n cs st :
  Forall (Forall unit_in_bounds) (fanouts (wired_lines n cs st).2).
Proof.
  revert st. induction cs as [|c cs IH]; intros st; [constructor|].
  cbn [wired_lines snd]. rewrite fanouts_app. apply Forall_app.
  split; [apply wired_line_in_bounds|apply IH].
Qed.

(** C10: in a session, from its construction to its destruction, every thread
    of every fan-out runs on a non-empty snapshot. In particular the
    [ReportWriter] (object 0, registered first) never evaluates
    [m_commands[0]] on an empty vector. *)
Theorem C10_report_writer_in_bounds n cs :
  Forall (Forall unit_in_bounds)
         (fanouts (log (BatchConsoleInput.run
                          cs (BatchConsoleInput.create n empty_world)).2))
  /\ Forall (Forall unit_in_bounds)
            (fanouts (log (BatchConsoleInput.lifetime n cs)))
  /\ (IndexOutOfRange ∉ effects (log (BatchConsoleInput.lifetime n cs)))
  /\ heap (BatchConsoleInput.create n empty_world).2 !! 0
       = Some (Output.mk Output.ReportWriter []).
Proof.
  destruct (session_run n cs) as (_ & Rl & _).
  assert (L : Forall (Forall unit_in_bounds)
                     (fanouts (log (BatchConsoleInput.lifetime n cs)))).
  { rewrite session_lifetime. cbn zeta. rewrite fanouts_app.
    apply Forall_app. split; [apply wired_lines_in_bounds|].
    destruct (0 <? _)%Z; [constructor|].
    destruct (wired_lines n cs (0%Z, [])).1.2; repeat constructor. }
  split; [rewrite Rl; apply wired_lines_in_bounds|].
  split; [exact L|]. split; [|reflexivity].
  unfold effects. intros Hin.
  apply list_elem_of_fmap in Hin. destruct Hin as (u & Hu & Hin).
  apply list_elem_of_In, in_concat in Hin. destruct Hin as (us & Hus & Hu').
  apply list_elem_of_In in Hus, Hu'.
  rewrite Forall_forall in L. specialize (L us Hus).
  rewrite Forall_forall in L. destruct (L u Hu') as [_ Hb]. congruence.
Qed.

(** *** Blocks *)

Lemma hold_calls_app l1 l2 : hold_calls (l1 ++ l2) = hold_calls l1 ++ hold_calls l2.
Proof. apply omap_app. Qed.

Lemma fanouts_wired_flush b :
  fanouts (wired_flush b) = match b with [] => [] | _ :: _ => [wired_units b] end.
Proof. destruct b; reflexivity. Qed.

Lemma hold_calls_wired_flush b : hold_calls (wired_flush b) = [].
Proof. destruct b; reflexivity. Qed.

Lemma wired_lines_one n c st : wired_lines n [c] st = wired_line n c st.
Proof.
  cbn [wired_lines fst snd]. rewrite app_nil_r.
  destruct (wired_line n c st); reflexivity.
Qed.

(** While a block opened at depth [d >= 1] is open, lines are only
    accumulated: no flush and no hold transition, however many they are. *)
Lemma held_lines n body : forall k d pending,
  (1 <= d)%Z -> nested k body = true ->
  (wired_lines n body ((d + Z.of_nat k)%Z, pending)).1
    = (d, pending ++ List.filter passthrough body)
  /\ fanouts (wired_lines n body ((d + Z.of_nat k)%Z, pending)).2 = []
  /\ hold_calls (wired_lines n body ((d + Z.of_nat k)%Z, pending)).2 = [].
Proof.
  induction body as [|c body IH]; intros k d pending Hd N.
  - simpl in *. apply Nat.eqb_eq in N. subst k.
    rewrite Z.add_0_r, app_nil_r. auto.
  - cbn [wired_lines nested List.filter fst snd] in *.
    unfold wired_line, passthrough. cbn [fst snd].
    destruct (is_open c) eqn:Eo.
    + destruct (Z.eqb_spec (d + Z.of_nat k) 0) as [E|_]; [lia|].
      cbn [fst snd negb andb app].
      replace (d + Z.of_nat k + 1)%Z with (d + Z.of_nat (S k))%Z by lia.
      apply IH; assumption.
    + destruct (is_close c) eqn:Ec.
      * destruct k as [|k']; [discriminate|].
        destruct (Z.eqb_spec (d + Z.of_nat (S k') - 1) 0) as [E|_]; [lia|].
        cbn [fst snd negb andb app].
        replace (d + Z.of_nat (S k') - 1)%Z with (d + Z.of_nat k')%Z by lia.
        apply IH; assumption.
      * destruct (Z.ltb_spec 0 (d + Z.of_nat k)) as [_|E]; [|lia].
        cbn [fst snd negb andb].
        destruct (IH k d (pending ++ [c]) Hd N) as (I1 & I2 & I3).
        rewrite I1, <- app_assoc. split; [reflexivity|].
        rewrite fanouts_app, hold_calls_app, I2, I3. split; reflexivity.
Qed.

(** An outermost block, from its open marker to its close marker. *)
Lemma block_lines n o body c pending :
  is_open o = true -> is_close c = true -> nested 0 body = true ->
  let inside := List.filter passthrough body in
  exists E,
    fanouts E = [] /\ hold_calls E = []
    /\ wired_lines n [o] (0%Z, pending)
         = ((1%Z, []), EvStartBlock :: wired_flush pending)
    /\ wired_lines n ([o] ++ body) (0%Z, pending)
         = ((1%Z, inside), (EvStartBlock :: wired_flush pending) ++ E)
    /\ wired_lines n ([o] ++ body ++ [c]) (0%Z, pending)
         = ((0%Z, []),
            (EvStartBlock :: wired_flush pending) ++ E
            ++ EvFinishBlock :: wired_flush inside).
Proof.
  intros Ho Hc N inside.
  assert (O : wired_lines n [o] (0%Z, pending)
              = ((1%Z, []), EvStartBlock :: wired_flush pending)).
  { rewrite wired_lines_one. unfold wired_line. rewrite Ho. reflexivity. }
  destruct (held_lines n body 0 1%Z [] ltac:(lia) N) as (H1 & H2 & H3).
  change (1 + Z.of_nat 0)%Z with 1%Z in *. cbn [app] in H1.
  exists (wired_lines n body (1%Z, [])).2.
  split; [exact H2|]. split; [exact H3|]. split; [exact O|].
  assert (B : wired_lines n ([o] ++ body) (0%Z, pending)
              = ((1%Z, inside),
                 (EvStartBlock :: wired_flush pending)
                 ++ (wired_lines n body (1%Z, [])).2)).
  { rewrite wired_lines_app, O. cbn [fst snd]. rewrite H1. reflexivity. }
  split; [exact B|].
  rewrite app_assoc, wired_lines_app, B. cbn [fst snd].
  rewrite wired_lines_one. unfold wired_line. cbn [fst snd].
  assert (is_open c = false) as ->.
  { unfold is_open, is_close in *. apply String.eqb_eq in Hc. rewrite Hc.
    reflexivity. }
  rewrite Hc. cbn [fst snd]. rewrite <- app_assoc. reflexivity.
Qed.

(** C6, as amended: for a marker pair that opens an outermost block (the
    depth is 0 when its open marker arrives) around a properly nested body,
    no flush happens between the two markers, however many commands the body
    submits; the close marker triggers exactly one fan-out, carrying all the
    commands submitted inside, when there are any, and none when there are
    none. The pair makes one call of [StartBlock] and one of [FinishBlock]
    and leaves the depth at 0. *)
Theorem C6_outermost_block_flushes_at_close n pre o body c :
  is_open o = true -> is_close c = true -> nested 0 body = true ->
  BatchConsoleInput.m_blockDepth
    (BatchConsoleInput.run pre (BatchConsoleInput.create n empty_world)).1
    = 0%Z ->
  let init := BatchConsoleInput.create n empty_world in
  block_flushes_at_close n pre o body c
  /\ hold_calls (log (BatchConsoleInput.run (pre ++ [o] ++ body ++ [c]) init).2)
     = hold_calls (log (BatchConsoleInput.run pre init).2) ++ [StartHold; EndHold]
  /\ BatchConsoleInput.m_blockDepth
       (BatchConsoleInput.run (pre ++ [o] ++ body ++ [c]) init).1 = 0%Z.
Proof.
  intros Ho Hc N D init. unfold block_flushes_at_close, init in *.
  destruct (session_run n pre) as (P1 & Pl & _). rewrite P1 in D.
  cbn [BatchConsoleInput.m_blockDepth wired_session] in D.
  destruct (session_run n (pre ++ [o])) as (_ & Ol & _).
  destruct (session_run n (pre ++ [o] ++ body)) as (_ & Bl & _).
  destruct (session_run n (pre ++ [o] ++ body ++ [c])) as (C1 & Cl & _).
  rewrite C1, Pl, Ol, Bl, Cl. clear P1 Pl Ol Bl C1 Cl.
  rewrite !(wired_lines_app n pre).
  destruct (wired_lines n pre (0%Z, [])) as [[d pending] e0].
  cbn [fst snd] in *. subst d.
  destruct (block_lines n o body c pending Ho Hc N) as (E & F & H & L1 & L2 & L3).
  cbn zeta in L2, L3. rewrite L1, L2, L3.
  cbn [fst snd BatchConsoleInput.m_blockDepth wired_session].
  rewrite !fanouts_app, !hold_calls_app, F, H.
  change (fanouts (EvStartBlock :: wired_flush pending))
    with (fanouts (wired_flush pending)).
  change (fanouts (EvFinishBlock :: wired_flush (List.filter passthrough body)))
    with (fanouts (wired_flush (List.filter passthrough body))).
  change (hold_calls (EvStartBlock :: wired_flush pending))
    with (StartHold :: hold_calls (wired_flush pending)).
  change (hold_calls (EvFinishBlock :: wired_flush (List.filter passthrough body)))
    with (EndHold :: hold_calls (wired_flush (List.filter passthrough body))).
  rewrite !hold_calls_wired_flush, !fanouts_wired_flush, !app_nil_r.
  cbn [app]. rewrite <- !app_assoc.
  split; [split|split]; reflexivity.
Qed.

Lemma nested_passthrough k xs rest :
  Forall (fun c => passthrough c = true) xs ->
  nested k (xs ++ rest) = nested k rest.
Proof.
  induction 1 as [|c xs Hc _ IH]; [reflexivity|].
  cbn [app nested]. unfold passthrough in Hc.
  destruct (is_open c), (is_close c); try discriminate. exact IH.
Qed.

Lemma filter_passthrough xs :
  Forall (fun c => passthrough c = true) xs -> List.filter passthrough xs = xs.
Proof.
  induction 1 as [|c xs Hc _ IH]; [reflexivity|].
  cbn [List.filter]. rewrite Hc, IH. reflexivity.
Qed.

(** C9, as amended: in the lines Open, Open, Close, Close, with any
    passthrough commands [xs], [ys], [zs] between the markers, [StartBlock]
    is called once, by the first open marker, and [FinishBlock] once, by the
    last close marker; the inner pair calls neither. No fan-out happens
    before the last close marker, and that marker triggers exactly one,
    carrying [xs ++ ys ++ zs], when some command was submitted between the
    markers; for the four bare markers there is none. *)
Theorem C9_nested_blocks_hold_once n t1 t2 t3 t4 xs ys zs :
  Forall (fun c => passthrough c = true) xs ->
  Forall (fun c => passthrough c = true) ys ->
  Forall (fun c => passthrough c = true) zs ->
  let o1 := mkCommand START_BLOCK t1 in
  let o2 := mkCommand START_BLOCK t2 in
  let c1 := mkCommand END_BLOCK t3 in
  let c2 := mkCommand END_BLOCK t4 in
  let init := BatchConsoleInput.create n empty_world in
  let first := log (BatchConsoleInput.run [o1] init).2 in
  let middle :=
    log (BatchConsoleInput.run ([o1] ++ xs ++ [o2] ++ ys ++ [c1] ++ zs) init).2 in
  let last :=
    log (BatchConsoleInput.run
           ([o1] ++ (xs ++ [o2] ++ ys ++ [c1] ++ zs) ++ [c2]) init).2 in
  hold_calls first = [StartHold]
  /\ hold_calls middle = [StartHold]
  /\ hold_calls last = [StartHold; EndHold]
  /\ fanouts middle = []
  /\ fanouts last =
       match xs ++ ys ++ zs with
       | [] => []
       | _ :: _ => [wired_units (xs ++ ys ++ zs)]
       end.
Proof.
  intros Hx Hy Hz o1 o2 c1 c2 init first middle last.
  set (body := xs ++ [o2] ++ ys ++ [c1] ++ zs).
  assert (N : nested 0 body = true).
  { unfold body. rewrite nested_passthrough by exact Hx.
    cbn [app nested]. change (is_open o2) with true. cbv iota.
    rewrite nested_passthrough by exact Hy.
    cbn [app nested]. change (is_open c1) with false.
    change (is_close c1) with true. cbv iota.
    rewrite <- (app_nil_r zs), nested_passthrough by exact Hz. reflexivity. }
  assert (I : List.filter passthrough body = xs ++ ys ++ zs).
  { unfold body. rewrite !List.filter_app.
    rewrite (filter_passthrough xs Hx), (filter_passthrough ys Hy),
      (filter_passthrough zs Hz). reflexivity. }
  destruct (block_lines n o1 body c2 [] eq_refl eq_refl N)
    as (E & F & H & L1 & L2 & L3).
  cbn zeta in L2, L3. rewrite I in L3.
  unfold first, middle, last, init. fold body.
  destruct (session_run n [o1]) as (_ & -> & _).
  destruct (session_run n ([o1] ++ body)) as (_ & -> & _).
  destruct (session_run n ([o1] ++ body ++ [c2])) as (_ & -> & _).
  rewrite L1, L2, L3. cbn [snd].
  rewrite !fanouts_app, !hold_calls_app, F, H.
  change (hold_calls (EvFinishBlock :: wired_flush (xs ++ ys ++ zs)))
    with (EndHold :: hold_calls (wired_flush (xs ++ ys ++ zs))).
  change (fanouts (EvFinishBlock :: wired_flush (xs ++ ys ++ zs)))
    with (fanouts (wired_flush (xs ++ ys ++ zs))).
  rewrite hold_calls_wired_flush, fanouts_wired_flush.
  repeat split; reflexivity.
Qed.

End Session.

(** * Facts about runs of the engine *)

Section Batches.
Import BatchCommandProcessor.

Lemma subscribe_all n subs : forall acc,
  fold_left (fun q o => subscribe (Some o) q) subs
            {| m_bulkSize := n; m_blockForced := false; m_commands := [];
               m_subscribers := acc |}
  = {| m_bulkSize := n; m_blockForced := false; m_commands := [];
       m_subscribers := acc ++ subs |}.
Proof.
  induction subs as [|a subs IH]; intros acc.
  - rewrite app_nil_r. reflexivity.
  - simpl. unfold set_subscribers. simpl.
    rewrite IH, <- app_assoc. reflexivity.
Qed.

Lemma engine_with_eq n subs :
  engine_with n subs =
  {| m_bulkSize := n; m_blockForced := false; m_commands := [];
     m_subscribers := subs |}.
Proof. apply (subscribe_all n subs []). Qed.

Lemma spawn_absent (h : gmap nat Output.t) s subs :
  s ∉ subs -> filter (fun u => unit_sub u = s) (spawn h subs) = [].
Proof.
  induction subs as [|a subs IH]; intros N; [reflexivity|].
  rewrite spawn_cons.
  assert (a <> s) by (intros ->; apply N; left).
  assert (s ∉ subs) by (intros Hs; apply N; right; exact Hs).
  destruct (h !! a); [rewrite filter_cons_False by exact H|]; apply IH; assumption.
Qed.

(** A subscriber registered once and alive takes part in a fan-out with
    exactly one thread, which flushes the snapshot it holds. *)
Lemma spawn_once (h : gmap nat Output.t) s o subs :
  NoDup subs -> s ∈ subs -> h !! s = Some o ->
  unit_batch <$> filter (fun u => unit_sub u = s) (spawn h subs)
  = [Output.m_commands o].
Proof.
  induction subs as [|a subs IH]; intros ND Hs E; [inversion Hs|].
  apply NoDup_cons in ND. destruct ND as [Ha ND].
  rewrite spawn_cons. destruct (decide (a = s)) as [->|Hne].
  - rewrite E, filter_cons_True by reflexivity.
    rewrite (spawn_absent h s subs Ha). reflexivity.
  - assert (s ∈ subs) by (apply elem_of_cons in Hs; destruct Hs; congruence).
    destruct (h !! a); [rewrite filter_cons_False by exact Hne|];
      apply IH; assumption.
Qed.

Lemma flushed_fanout s us :
  flushed s [EvFanOut us] = unit_batch <$> filter (fun u => unit_sub u = s) us.
Proof. unfold flushed. simpl. rewrite app_nil_r. reflexivity. Qed.

Lemma flushed_notifications s snap h subs : flushed s (notifications snap h subs) = [].
Proof. apply flushed_no_fanout, fanouts_notifications. Qed.

Lemma flushed_dump_events s o pending h subs :
  NoDup subs -> s ∈ subs -> h !! s = Some o ->
  flushed s (dump_events pending h subs) =
  match pending with [] => [] | _ :: _ => [Output.m_commands o] end.
Proof.
  intros ND Hs E. unfold dump_events.
  rewrite flushed_app, flushed_notifications, app_nil_r.
  destruct pending; [reflexivity|].
  rewrite flushed_fanout. apply spawn_once; assumption.
Qed.

(** What one submission adds to the batches flushed by [s]. *)
Lemma ProcessCommand_flushed s o c p w :
  NoDup (m_subscribers p) -> s ∈ m_subscribers p -> heap w !! s = Some o ->
  let snap := m_commands p ++ [c] in
  let flush := negb (m_blockForced p) && (m_bulkSize p <=? length snap) in
  flushed s (log (ProcessCommand c p w).2)
  = flushed s (log w) ++ (if flush then [snap] else []).
Proof.
  intros ND Hs E snap flush.
  destruct (ProcessCommand_spec c p w) as (_ & Hl & _).
  fold snap flush in Hl. rewrite Hl.
  rewrite flushed_app. f_equal.
  change (EvSubmit c :: ?l) with ([EvSubmit c] ++ l).
  rewrite !flushed_app, flushed_notifications.
  destruct flush; [|reflexivity].
  change (EvFanOut ?u :: ?l) with ([EvFanOut u] ++ l).
  rewrite flushed_app, flushed_notifications, app_nil_r, flushed_fanout.
  rewrite (spawn_once _ s (Output.update snap o)); try assumption.
  - reflexivity.
  - rewrite lookup_fmap, E. reflexivity.
Qed.

(** Submitting [cs] to an engine that is not held: what subscriber [s] has
    flushed, followed by what is still pending, is what it had flushed
    before, followed by what was pending and by [cs]. *)
Lemma submit_all_flushed s cs : forall p w o,
  m_blockForced p = false ->
  NoDup (m_subscribers p) -> s ∈ m_subscribers p -> heap w !! s = Some o ->
  (m_commands p = [] \/ length (m_commands p) < m_bulkSize p) ->
  let r := submit_all cs (p, w) in
  m_blockForced r.1 = false
  /\ m_subscribers r.1 = m_subscribers p
  /\ (m_commands r.1 = [] \/ length (m_commands r.1) < m_bulkSize p)
  /\ (exists o', heap r.2 !! s = Some o'
        /\ (cs <> [] \/ Output.m_commands o = m_commands p ->
            Output.m_commands o' = m_commands r.1))
  /\ concat (flushed s (log r.2)) ++ m_commands r.1
     = concat (flushed s (log w)) ++ m_commands p ++ cs.
Proof.
  induction cs as [|c cs IH]; intros p w o Hf ND Hs E Hp.
  - simpl. rewrite app_nil_r. repeat split; try assumption.
    exists o. split; [exact E|]. intros [H|H]; [congruence|exact H].
  - cbn [submit_all fold_left fst snd].
    destruct (ProcessCommand_spec c p w) as (P1 & _ & _ & Ph).
    pose proof (ProcessCommand_flushed s o c p w ND Hs E) as Pf.
    cbn zeta in P1, Ph, Pf. rewrite Hf in P1, Ph, Pf. cbn [negb andb] in *.
    specialize (Ph s). rewrite E in Ph.
    destruct (decide (s ∈ m_subscribers p)); [|contradiction].
    destruct (ProcessCommand c p w) as [p1 w1]. cbn [fst snd] in *.
    set (snap := m_commands p ++ [c]) in *.
    set (flush := m_bulkSize p <=? length snap) in *.
    assert (Hp1 : m_commands p1 = [] \/ length (m_commands p1) < m_bulkSize p1).
    { rewrite P1. cbn [m_commands m_bulkSize set_commands].
      destruct flush eqn:Ef; [left; reflexivity|right].
      apply Nat.leb_gt. exact Ef. }
    assert (Hb : m_bulkSize p1 = m_bulkSize p) by (rewrite P1; reflexivity).
    destruct (IH p1 w1 (Output.update (if flush then [] else snap) o))
      as (I1 & I2 & I3 & (o' & I4 & I5) & I6).
    + rewrite P1. exact Hf.
    + rewrite P1. exact ND.
    + rewrite P1. exact Hs.
    + exact Ph.
    + exact Hp1.
    + unfold submit_all in *. rewrite Hb in I3.
      split; [exact I1|]. split; [rewrite I2, P1; reflexivity|].
      split; [exact I3|]. split.
      * exists o'. split; [exact I4|]. intros _. apply I5. right.
        rewrite P1. reflexivity.
      * rewrite I6, Pf, P1. cbn [m_commands set_commands].
        destruct flush.
        -- rewrite concat_app. cbn [concat app]. unfold snap.
           rewrite app_nil_r, <- !app_assoc. reflexivity.
        -- rewrite app_nil_r. unfold snap. rewrite <- !app_assoc. reflexivity.
Qed.

(** C3, as amended: [cs] holds at least one command and at least as many as
    the threshold, and is submitted to a fresh engine that is never held.
    For a subscriber that is registered once and alive: it flushes at least
    once while the commands are submitted; the batches it has flushed by
    then, in order, followed by the commands still pending, are [cs]; and
    with the final flush of the destructor of the engine the batches it has
    flushed are [cs], nothing twice and nothing lost. *)
Theorem C3_threshold_batches n subs h cs s :
  (n <= length cs)%nat -> cs <> [] ->
  NoDup subs -> s ∈ subs -> is_Some (h !! s) ->
  threshold_flushes_everything n subs h cs s
  /\ flushed s (log (threshold_run n subs h cs).2) <> []
  /\ concat (flushed s (log (threshold_run n subs h cs).2))
       ++ m_commands (threshold_run n subs h cs).1 = cs.
Proof.
  intros Hn Hc ND Hs [o E].
  unfold threshold_flushes_everything, threshold_lifetime, threshold_run.
  rewrite engine_with_eq.
  set (p0 := {| m_bulkSize := n; m_blockForced := false; m_commands := [];
                m_subscribers := subs |}).
  destruct (submit_all_flushed s cs p0 (world_with h) o eq_refl ND Hs E
              (or_introl eq_refl))
    as (R1 & R2 & R3 & (o' & R4 & R5) & R6).
  cbn [m_commands m_subscribers m_bulkSize p0 world_with log flushed] in *.
  change (concat (flushed s [])) with (@nil Command) in R6. cbn [app] in R6.
  destruct (submit_all cs (p0, world_with h)) as [p1 w1]. cbn [fst snd] in *.
  assert (F : flushed s (log w1) <> []).
  { intros F. rewrite F in R6. cbn [concat app] in R6. rewrite R6 in R3.
    destruct R3 as [R3|R3]; [congruence|lia]. }
  split; [|split; [exact F|exact R6]].
  intros _. rewrite destroy_log, R1, R2, flushed_app.
  rewrite (flushed_dump_events s o' _ _ _ ND Hs R4), (R5 (or_introl Hc)).
  split.
  - intros H. apply app_eq_nil in H. destruct H as [H _]. exact (F H).
  - rewrite concat_app, <- R6. f_equal.
    destruct (m_commands p1); [reflexivity|].
    cbn [concat]. rewrite app_nil_r. reflexivity.
Qed.

(** A session fed with passthrough commands only hands each of them to its
    engine. *)
Lemma run_passthrough cs :
  Forall (fun c => passthrough c = true) cs ->
  forall s p w,
    BatchConsoleInput.m_commandProcessor s = Some p ->
    BatchConsoleInput.run cs (s, w)
    = BatchConsoleInput.with_engine (BatchConsoleInput.m_blockDepth s) s
                                    (submit_all cs (p, w)).
Proof.
  induction 1 as [|c cs Hc _ IH]; intros s p w E.
  - destruct s; simpl in *; subst; reflexivity.
  - cbn [BatchConsoleInput.run submit_all fold_left fst snd].
    unfold BatchConsoleInput.ProcessCommand at 2. rewrite E.
    unfold passthrough, is_open, is_close in Hc.
    destruct (String.eqb (text c) START_BLOCK); [discriminate|].
    destruct (String.eqb (text c) END_BLOCK); [discriminate|].
    destruct (ProcessCommand c p w) as [p1 w1].
    unfold BatchConsoleInput.with_engine. cbn [fst snd].
    unfold BatchConsoleInput.run, submit_all, BatchConsoleInput.with_engine in IH.
    rewrite (IH {| BatchConsoleInput.m_blockDepth := BatchConsoleInput.m_blockDepth s;
                   BatchConsoleInput.m_commandProcessor := Some p1;
                   BatchConsoleInput.m_output := BatchConsoleInput.m_output s |}
                p1 w1 eq_refl).
    reflexivity.
Qed.

(** The same in a session: after N >= threshold passthrough lines, N >= 1,
    each of the two subscribers has flushed at least once, and what it has
    flushed followed by what is pending is the input. *)
Lemma session_threshold_batches n cs s :
  (n <= length cs)%nat -> cs <> [] ->
  Forall (fun c => passthrough c = true) cs -> s ∈ [0; 1] ->
  let r := BatchConsoleInput.run cs (BatchConsoleInput.create n empty_world) in
  flushed s (log r.2) <> []
  /\ exists pending,
       m_commands <$> BatchConsoleInput.m_commandProcessor r.1 = Some pending
       /\ concat (flushed s (log r.2)) ++ pending = cs.
Proof.
  intros Hn Hc Hp Hs.
  destruct (wired_create n) as (C1 & Cl & (H0 & H1)).
  assert (exists o, heap (BatchConsoleInput.create n empty_world).2 !! s = Some o)
    as [o E].
  { apply elem_of_cons in Hs. destruct Hs as [->|Hs]; [eauto|].
    apply list_elem_of_singleton in Hs. subst s. eauto. }
  destruct (BatchConsoleInput.create n empty_world) as [s0 w0].
  cbn [fst snd] in *. subst s0.
  rewrite (run_passthrough cs Hp (wired_session n 0 []) (wired_engine n 0 [])
                           w0 eq_refl).
  assert (ND : NoDup [0; 1]).
  { apply NoDup_cons. split; [|apply NoDup_singleton].
    intros H. apply list_elem_of_singleton in H. discriminate H. }
  destruct (submit_all_flushed s cs (wired_engine n 0 []) w0 o eq_refl ND Hs E
              (or_introl eq_refl))
    as (_ & _ & R3 & _ & R6).
  rewrite Cl in R6. change (concat (flushed s [])) with (@nil Command) in R6.
  cbn [app m_commands m_bulkSize wired_engine] in R3, R6.
  destruct (submit_all cs (wired_engine n 0 [], w0)) as [p1 w1].
  cbn [fst snd BatchConsoleInput.with_engine
       BatchConsoleInput.m_commandProcessor] in *.
  split.
  - intros F. rewrite F in R6. cbn [concat app] in R6. rewrite R6 in R3.
    destruct R3 as [R3|R3]; [congruence|lia].
  - exists (m_commands p1). split; [reflexivity|exact R6].
Qed.

End Batches.

(** * Concrete runs *)

Section Instances.
Import BatchCommandProcessor.

(** The flush routine run on the engine of a session that has just been
    constructed (nothing pending) sends both subscribers the empty snapshot:
    it is not silent. *)
Lemma C2_flush_of_empty_batch_notifies :
  ~ flush_of_empty_is_silent
      (wired_engine 3 0 []) (BatchConsoleInput.create 3 empty_world).2.
Proof.
  unfold flush_of_empty_is_silent. intros H. specialize (H eq_refl).
  vm_compute in H. discriminate H.
Qed.

Lemma C2_flush_of_empty_batch_witness :
  m_commands (wired_engine 3 0 []) = []
  /\ log (DumpBatch (wired_engine 3 0 [])
                    (BatchConsoleInput.create 3 empty_world).2).2
     = [EvUpdate 0 []; EvUpdate 1 []].
Proof.
  split; [reflexivity|].
  exact (proj2 (proj2 (C2_flush_of_empty_batch
                         (wired_engine 3 0 [])
                         (BatchConsoleInput.create 3 empty_world).2 eq_refl))).
Defined.

Lemma C5_flush_of_nonempty_batch_witness :
  m_commands (wired_engine 3 0 [cmd "a"]) <> []
  /\ log (DumpBatch
            (wired_engine 3 0 [cmd "a"])
            (BatchConsoleInput.run
               [cmd "a"] (BatchConsoleInput.create 3 empty_world)).2).2
     = [EvSubmit (cmd "a"); EvUpdate 0 [cmd "a"]; EvUpdate 1 [cmd "a"];
        EvFanOut (wired_units [cmd "a"]); EvUpdate 0 []; EvUpdate 1 []].
Proof.
  split; [discriminate|].
  refine (proj1 (C5_flush_of_nonempty_batch
                   (wired_engine 3 0 [cmd "a"])
                   (BatchConsoleInput.run
                      [cmd "a"] (BatchConsoleInput.create 3 empty_world)).2 _)).
  discriminate.
Defined.

(** With no command and threshold 0 the input is as long as the threshold,
    and yet nothing is ever flushed, not even when the engine is destroyed. *)
Lemma C3_no_command_no_flush :
  ~ threshold_flushes_everything
      0 [0] {[ 0 := Output.mk Output.ConsoleOutput [] ]} [] 0.
Proof.
  unfold threshold_flushes_everything. intros H.
  destruct (H (le_n 0)) as [H1 _]. apply H1. reflexivity.
Qed.

Lemma C3_threshold_batches_witness :
  (3 <= length (cmd <$> ["a"; "b"; "c"; "d"]))%nat
  /\ cmd <$> ["a"; "b"; "c"; "d"] <> []
  /\ NoDup [0; 1]
  /\ 0 ∈ [0; 1]
  /\ is_Some (heap (BatchConsoleInput.create 3 empty_world).2 !! 0)
  /\ concat (flushed 0 (log (threshold_lifetime
                               3 [0; 1]
                               (heap (BatchConsoleInput.create 3 empty_world).2)
                               (cmd <$> ["a"; "b"; "c"; "d"]))))
     = cmd <$> ["a"; "b"; "c"; "d"].
Proof.
  assert (H1 : (3 <= length (cmd <$> ["a"; "b"; "c"; "d"]))%nat)
    by (simpl; lia).
  assert (H2 : cmd <$> ["a"; "b"; "c"; "d"] <> []) by discriminate.
  assert (H3 : NoDup [0; 1]).
  { apply NoDup_cons. split; [|apply NoDup_singleton].
    intros H. apply list_elem_of_singleton in H. discriminate H. }
  assert (H4 : 0 ∈ [0; 1]) by left.
  assert (H5 : is_Some (heap (BatchConsoleInput.create 3 empty_world).2 !! 0))
    by (eexists; reflexivity).
  repeat (split; [assumption|]).
  exact (proj2 (proj1 (C3_threshold_batches _ _ _ _ _ H1 H2 H3 H4 H5) H1)).
Defined.

(** The inner pair of [{], [{], a, [}], [}] has a command inside, and its
    close marker flushes nothing. *)
Lemma C6_inner_pair_does_not_flush :
  is_open (cmd "{") = true /\ is_close (cmd "}") = true
  /\ nested 0 [cmd "a"] = true
  /\ ~ block_flushes_at_close 3 [cmd "{"] (cmd "{") [cmd "a"] (cmd "}").
Proof.
  repeat (split; [reflexivity|]).
  unfold block_flushes_at_close. intros [_ H].
  vm_compute in H. discriminate H.
Qed.

Lemma C6_outermost_block_witness :
  is_open (cmd "{") = true /\ is_close (cmd "}") = true
  /\ nested 0 (cmd <$> ["b"; "{"; "c"; "}"; "d"]) = true
  /\ BatchConsoleInput.m_blockDepth
       (BatchConsoleInput.run
          [cmd "a"] (BatchConsoleInput.create 3 empty_world)).1 = 0%Z
  /\ block_flushes_at_close 3 [cmd "a"] (cmd "{")
       (cmd <$> ["b"; "{"; "c"; "}"; "d"]) (cmd "}").
Proof.
  do 4 (split; [reflexivity|]).
  exact (proj1 (C6_outermost_block_flushes_at_close
                  3 [cmd "a"] (cmd "{") (cmd <$> ["b"; "{"; "c"; "}"; "d"])
                  (cmd "}") eq_refl eq_refl eq_refl eq_refl)).
Defined.

(** The four bare markers: no fan-out at all. *)
Lemma C9_bare_markers_flush_nothing :
  ~ nested_markers_flush_once 3 (cmd "{") (cmd "{") (cmd "}") (cmd "}").
Proof.
  unfold nested_markers_flush_once. intros (_ & _ & _ & H).
  vm_compute in H. discriminate H.
Qed.

Lemma C9_nested_blocks_witness :
  Forall (fun c => passthrough c = true) [cmd "a"]
  /\ Forall (fun c => passthrough c = true) [cmd "b"]
  /\ Forall (fun c => passthrough c = true) []
  /\ fanouts (log (BatchConsoleInput.run
                     (cmd <$> ["{"; "a"; "{"; "b"; "}"; "}"])
                     (BatchConsoleInput.create 3 empty_world)).2)
     = [wired_units [cmd "a"; cmd "b"]].
Proof.
  assert (Ha : Forall (fun c => passthrough c = true) [cmd "a"])
    by (repeat constructor).
  assert (Hb : Forall (fun c => passthrough c = true) [cmd "b"])
    by (repeat constructor).
  assert (Hn : Forall (fun c => passthrough c = true) []) by constructor.
  repeat (split; [assumption|]).
  exact (proj2 (proj2 (proj2 (proj2
          (C9_nested_blocks_hold_once 3 0 0 0 0 [cmd "a"] [cmd "b"] []
                                      Ha Hb Hn))))).
Defined.

End Instances.

(** * Further properties: what the subscribers print *)

Section Printing.

Lemma append_nil_r s : s +:+ EmptyString = s.
Proof.
  induction s as [|c s IH]; [reflexivity|].
  change (String c s +:+ EmptyString) with (String c (s +:+ EmptyString)).
  rewrite IH. reflexivity.
Qed.

Lemma append_assoc s1 s2 s3 : (s1 +:+ s2) +:+ s3 = s1 +:+ (s2 +:+ s3).
Proof.
  induction s1 as [|c s1 IH]; [reflexivity|].
  change (String c ((s1 +:+ s2) +:+ s3) = String c (s1 +:+ (s2 +:+ s3))).
  rewrite IH. reflexivity.
Qed.

Lemma append_eq_nil s1 s2 : s1 +:+ s2 = EmptyString -> s1 = EmptyString.
Proof. destruct s1; [reflexivity|discriminate]. Qed.

(** The fold of [Join] once the accumulator is not empty: every further
    text comes after a separator, empty or not. *)
Lemma Join_from acc v :
  acc <> EmptyString ->
  fold_left
    (fun s com =>
       if String.eqb s "" then s +:+ text com else (s +:+ ", ") +:+ text com)
    v acc
  = String.concat ", " (acc :: (text <$> v)).
Proof.
  revert acc. induction v as [|c v IH]; intros acc Hacc.
  - reflexivity.
  - cbn [fold_left]. destruct (String.eqb_spec acc "") as [E|_]; [contradiction|].
    rewrite IH.
    + rewrite fmap_cons. cbn [String.concat].
      destruct (text <$> v); rewrite !append_assoc; reflexivity.
    + intros E. apply append_eq_nil, append_eq_nil in E. contradiction.
Qed.

(** X1: [Join] gives the texts separated by a comma and a space, except
    that empty texts at the head of the batch are left out together with
    their separators. *)
Theorem X1_Join_separates_texts v :
  Output.Join v = String.concat ", " (drop_empty (text <$> v)).
Proof.
  unfold Output.Join. induction v as [|c v IH]; [reflexivity|].
  cbn [fold_left]. rewrite fmap_cons. cbn [drop_empty String.eqb String.append].
  destruct (String.eqb_spec (text c) "") as [E|N].
  - rewrite E. exact IH.
  - apply Join_from. exact N.
Qed.

End Printing.

(** * Further properties: the lines of [async::receive] *)

Section Lines.
Import async.

Lemma separator_free_app a b :
  separator_free (a +:+ b) = separator_free a && separator_free b.
Proof.
  induction a as [|c a IH]; [reflexivity|].
  change (String c a +:+ b) with (String c (a +:+ b)).
  cbn [separator_free]. rewrite IH, andb_assoc. reflexivity.
Qed.

Lemma split_separator_free data : forall token after_sep,
  separator_free token = true ->
  Forall (fun t => separator_free t = true) (split data token after_sep).
Proof.
  induction data as [|c data IH]; intros token after_sep H; cbn [split].
  - constructor; [exact H|constructor].
  - destruct (is_separator c) eqn:E.
    + destruct after_sep; [apply IH; reflexivity|].
      constructor; [exact H|apply IH; reflexivity].
    + apply IH. rewrite separator_free_app, H. cbn [separator_free].
      rewrite E. reflexivity.
Qed.

(** A piece without separator is one token. *)
Lemma split_line x : forall token after_sep,
  separator_free x = true ->
  split x token after_sep = [token +:+ x].
Proof.
  induction x as [|c x IH]; intros token after_sep H; cbn [split].
  - rewrite append_nil_r. reflexivity.
  - cbn [separator_free] in H. apply andb_true_iff in H. destruct H as [Hc Hx].
    apply negb_true_iff in Hc. rewrite Hc, (IH _ _ Hx), append_assoc.
    reflexivity.
Qed.

Lemma split_after_separator data :
  nonempty (split data EmptyString true)
  = nonempty (split data EmptyString false).
Proof.
  unfold nonempty.
  destruct data as [|c data]; [reflexivity|]. cbn [split].
  destruct (is_separator c); reflexivity.
Qed.

Lemma split_chunks d1 d2 : forall token after_sep,
  (after_sep = true -> token = EmptyString) ->
  nonempty (split (d1 +:+ newline +:+ d2) token after_sep)
  = nonempty (split d1 token after_sep) ++ nonempty (split d2 EmptyString false).
Proof.
  pose proof split_after_separator as SA. unfold nonempty in *.
  induction d1 as [|c d1 IH]; intros token after_sep H.
  - change (EmptyString +:+ newline +:+ d2)
      with (String (Ascii.ascii_of_nat 10) d2).
    cbn [split]. change (is_separator (Ascii.ascii_of_nat 10)) with true.
    cbv iota. destruct after_sep.
    + rewrite (H eq_refl), SA. reflexivity.
    + cbn [List.filter]. rewrite SA.
      destruct (negb (String.eqb token EmptyString)); reflexivity.
  - change (String c d1 +:+ newline +:+ d2)
      with (String c (d1 +:+ newline +:+ d2)).
    cbn [split]. destruct (is_separator c).
    + destruct after_sep.
      * apply IH. reflexivity.
      * cbn [List.filter]. rewrite IH by reflexivity.
        destruct (negb (String.eqb token EmptyString)); reflexivity.
    + apply IH. discriminate.
Qed.

Lemma parts_line x : is_line x -> parts x = [x].
Proof.
  intros [Hn Hs]. unfold parts. rewrite (split_line x _ _ Hs).
  change (EmptyString +:+ x) with x. cbn [List.filter].
  destruct (String.eqb_spec x EmptyString); [contradiction|reflexivity].
Qed.

(** X2: every part that [receive] keeps is a line: it is not empty and it
    holds no separator. *)
Theorem X2_parts_are_lines data : Forall is_line (parts data).
Proof.
  unfold parts.
  pose proof (split_separator_free data EmptyString false eq_refl) as H.
  induction H as [|t l Ht _ IH]; [constructor|].
  cbn [List.filter]. destruct (String.eqb_spec t EmptyString) as [E|N];
    cbn [negb]; [exact IH|].
  constructor; [split; assumption|exact IH].
Qed.

Lemma parts_chunks d1 d2 :
  parts (d1 +:+ newline +:+ d2) = parts d1 ++ parts d2.
Proof. unfold parts. apply (split_chunks d1 d2). discriminate. Qed.

(** X3: two chunks with a separator between them give the parts of the
    first followed by the parts of the second. *)
Theorem X3_parts_of_chunks d1 d2 :
  parts (d1 +:+ newline +:+ d2) = parts d1 ++ parts d2.
Proof. unfold parts. apply (split_chunks d1 d2). discriminate. Qed.

(** X4: lines joined by separators come back as they were, with or without a
    separator after the last line or before the first one. *)
Theorem X4_parts_of_joined_lines lines :
  Forall is_line lines ->
  parts (String.concat newline lines) = lines
  /\ parts (String.concat newline lines +:+ newline) = lines
  /\ parts (newline +:+ String.concat newline lines) = lines.
Proof.
  intros H.
  assert (P : parts (String.concat newline lines) = lines).
  { induction H as [|x l Hx Hl IH]; [reflexivity|].
    cbn [String.concat]. destruct l as [|y l].
    - apply parts_line. exact Hx.
    - rewrite parts_chunks, (parts_line x Hx), IH. reflexivity. }
  split; [exact P|]. split.
  - rewrite <- (append_nil_r (String.concat newline lines +:+ newline)).
    rewrite append_assoc, parts_chunks, P. apply app_nil_r.
  - change (newline +:+ String.concat newline lines)
      with (EmptyString +:+ newline +:+ String.concat newline lines).
    rewrite parts_chunks, P. reflexivity.
Qed.

(** X5: one call of [receive] on two chunks with a separator between them
    does what two calls do, one chunk each, when the clock gives the same
    times; a null handle is left alone by both. *)
Theorem X5_receive_chunks now handle d1 d2 size size1 size2 w :
  receive now handle (d1 +:+ newline +:+ d2) size w
  = receive (fun i => now (length (parts d1) + i))
            (receive now handle d1 size1 w).1 d2 size2
            (receive now handle d1 size1 w).2.
Proof.
  destruct handle as [h|]; [|reflexivity].
  unfold receive. cbn [fst snd].
  rewrite parts_chunks, imap_app.
  unfold BatchConsoleInput.run. rewrite fold_left_app.
  destruct (fold_left _ (imap _ (parts d1)) (h, w)) as [h1 w1].
  reflexivity.
Qed.

(** X6: nothing is kept from one call to the next. A line that arrives in
    two pieces, one per call, is submitted as two commands; in one piece it
    is one command. *)
Theorem X6_receive_does_not_rejoin now1 now2 h x y size1 size2 w :
  is_line x -> is_line y ->
  receive now2 (receive now1 (Some h) x size1 w).1 y size2
          (receive now1 (Some h) x size1 w).2
  = (Some (BatchConsoleInput.run
             [mkCommand x (now1 0); mkCommand y (now2 0)] (h, w)).1,
     (BatchConsoleInput.run
        [mkCommand x (now1 0); mkCommand y (now2 0)] (h, w)).2)
  /\ receive now1 (Some h) (x +:+ y) size1 w
     = (Some (BatchConsoleInput.run [mkCommand (x +:+ y) (now1 0)] (h, w)).1,
        (BatchConsoleInput.run [mkCommand (x +:+ y) (now1 0)] (h, w)).2).
Proof.
  intros Hx Hy.
  assert (Hxy : is_line (x +:+ y)).
  { destruct Hx as [Nx Sx], Hy as [Ny Sy]. split.
    - intros E. apply append_eq_nil in E. contradiction.
    - rewrite separator_free_app, Sx, Sy. reflexivity. }
  unfold receive. cbn [fst snd].
  rewrite (parts_line x Hx), (parts_line y Hy), (parts_line _ Hxy).
  split; reflexivity.
Qed.

End Lines.

(** * Further properties: what a session keeps true *)

Section Kept.
Import BatchCommandProcessor.

Lemma wired_depth n cs : forall d pending,
  (wired_lines n cs (d, pending)).1.1 = (d + net_depth cs)%Z.
Proof.
  induction cs as [|c cs IH]; intros d pending.
  - simpl. lia.
  - cbn [wired_lines net_depth fst snd].
    destruct (wired_line n c (d, pending)) as [[d1 p1] e1] eqn:E.
    cbn [fst snd]. rewrite IH.
    unfold wired_line in E. cbn [fst snd] in E.
    destruct (is_open c); [destruct (d =? 0)%Z; injection E; lia|].
    destruct (is_close c); [destruct (d - 1 =? 0)%Z; injection E; lia|].
    destruct (negb (0 <? d)%Z && (n <=? length (pending ++ [c])));
      injection E; lia.
Qed.

Lemma wired_line_short n c d pending :
  ((0 <? d)%Z = false -> pending = [] \/ length pending < n) ->
  (0 <? (wired_line n c (d, pending)).1.1)%Z = false ->
  (wired_line n c (d, pending)).1.2 = []
  \/ length (wired_line n c (d, pending)).1.2 < n.
Proof.
  unfold wired_line. cbn [fst snd]. intros H.
  destruct (is_open c).
  { destruct (Z.eqb_spec d 0); cbn [fst snd]; [auto|].
    intros E. apply H. destruct (Z.ltb_spec 0 d), (Z.ltb_spec 0 (d + 1));
      (reflexivity || discriminate || lia). }
  destruct (is_close c).
  { destruct (Z.eqb_spec (d - 1) 0); cbn [fst snd]; [auto|].
    intros E. apply H. destruct (Z.ltb_spec 0 d), (Z.ltb_spec 0 (d - 1));
      (reflexivity || discriminate || lia). }
  destruct (0 <? d)%Z eqn:Ed; cbn [negb andb fst snd];
    [intros E; congruence|].
  destruct (Nat.leb_spec n (length (pending ++ [c]))); cbn [fst snd]; auto.
Qed.

Lemma wired_lines_short n cs : forall d pending,
  ((0 <? d)%Z = false -> pending = [] \/ length pending < n) ->
  (0 <? (wired_lines n cs (d, pending)).1.1)%Z = false ->
  (wired_lines n cs (d, pending)).1.2 = []
  \/ length (wired_lines n cs (d, pending)).1.2 < n.
Proof.
  induction cs as [|c cs IH]; intros d pending H; [exact H|].
  cbn [wired_lines fst snd].
  pose proof (wired_line_short n c d pending H) as H1.
  destruct (wired_line n c (d, pending)) as [[d1 p1] e1]. cbn [fst snd] in *.
  apply IH. exact H1.
Qed.

Lemma flushed_wired_flush s b :
  s ∈ [0; 1] ->
  flushed s (wired_flush b) = match b with [] => [] | _ :: _ => [b] end.
Proof.
  intros Hs. destruct b as [|c b]; [reflexivity|].
  apply elem_of_cons in Hs. destruct Hs as [->|Hs]; [reflexivity|].
  apply list_elem_of_singleton in Hs. subst s. reflexivity.
Qed.

Lemma flushed_cons_submit s c l : flushed s (EvSubmit c :: l) = flushed s l.
Proof. reflexivity. Qed.

Lemma flushed_cons_update s s' b l : flushed s (EvUpdate s' b :: l) = flushed s l.
Proof. reflexivity. Qed.

Lemma flushed_cons_start s l : flushed s (EvStartBlock :: l) = flushed s l.
Proof. reflexivity. Qed.

Lemma flushed_cons_finish s l : flushed s (EvFinishBlock :: l) = flushed s l.
Proof. reflexivity. Qed.

Lemma concat_flushed_wired_flush s b :
  s ∈ [0; 1] -> concat (flushed s (wired_flush b)) = b.
Proof.
  intros Hs. rewrite (flushed_wired_flush s b Hs).
  destruct b; [reflexivity|]. cbn [concat]. apply app_nil_r.
Qed.

(** What a line adds to the batches flushed by a subscriber of the
    session. *)
Lemma wired_line_kept n c d pending s :
  s ∈ [0; 1] ->
  concat (flushed s (wired_line n c (d, pending)).2)
    ++ (wired_line n c (d, pending)).1.2
  = pending ++ List.filter passthrough [c].
Proof.
  intros Hs. unfold wired_line, passthrough. cbn [fst snd List.filter].
  destruct (is_open c).
  { destruct (d =? 0)%Z; cbn [fst snd negb andb].
    - rewrite flushed_cons_start, (concat_flushed_wired_flush s _ Hs).
      reflexivity.
    - rewrite app_nil_r. reflexivity. }
  destruct (is_close c).
  { destruct (d - 1 =? 0)%Z; cbn [fst snd negb andb].
    - rewrite flushed_cons_finish, (concat_flushed_wired_flush s _ Hs).
      reflexivity.
    - rewrite app_nil_r. reflexivity. }
  destruct (negb (0 <? d)%Z && (n <=? length (pending ++ [c])));
    cbn [fst snd negb andb]; unfold wired_updates; cbn [app];
    rewrite flushed_cons_submit, ?flushed_cons_update.
  - rewrite (concat_flushed_wired_flush s _ Hs), app_nil_r. reflexivity.
  - reflexivity.
Qed.

Lemma wired_lines_kept n cs s : forall d pending,
  s ∈ [0; 1] ->
  concat (flushed s (wired_lines n cs (d, pending)).2)
    ++ (wired_lines n cs (d, pending)).1.2
  = pending ++ List.filter passthrough cs.
Proof.
  induction cs as [|c cs IH]; intros d pending Hs.
  - simpl. rewrite app_nil_r. reflexivity.
  - cbn [wired_lines fst snd].
    pose proof (wired_line_kept n c d pending s Hs) as H1.
    destruct (wired_line n c (d, pending)) as [[d1 p1] e1]. cbn [fst snd] in *.
    rewrite flushed_app, concat_app, <- app_assoc, (IH d1 p1 Hs), app_assoc, H1.
    rewrite <- app_assoc. f_equal.
    change (c :: cs) with ([c] ++ cs). rewrite List.filter_app. reflexivity.
Qed.

(** X7: whatever the lines are, markers included, balanced or not, each of
    the two subscribers of a session has flushed, in order and once each,
    the passthrough commands received so far except those that are still
    pending. *)
Theorem X7_session_keeps_every_command n cs :
  let r := BatchConsoleInput.run cs (BatchConsoleInput.create n empty_world) in
  exists p,
    BatchConsoleInput.m_commandProcessor r.1 = Some p
    /\ concat (flushed 0 (log r.2)) ++ m_commands p = List.filter passthrough cs
    /\ concat (flushed 1 (log r.2)) ++ m_commands p = List.filter passthrough cs.
Proof.
  destruct (session_run n cs) as (R1 & Rl & _). cbn zeta.
  rewrite R1, Rl. eexists. split; [reflexivity|].
  cbn [m_commands wired_engine].
  split; apply (wired_lines_kept n cs _ 0%Z []); set_unfold; auto.
Qed.

(** X8: after any lines the depth is the number of open markers minus the
    number of close markers, negative when there were more close markers;
    forced-hold is on exactly when the depth is positive; threshold and
    registry are as the constructor left them. *)
Theorem X8_depth_and_hold_flag n cs :
  let r := BatchConsoleInput.run cs (BatchConsoleInput.create n empty_world) in
  BatchConsoleInput.m_blockDepth r.1 = net_depth cs
  /\ exists p,
       BatchConsoleInput.m_commandProcessor r.1 = Some p
       /\ m_blockForced p = (0 <? net_depth cs)%Z
       /\ m_bulkSize p = n
       /\ m_subscribers p = [0; 1].
Proof.
  destruct (session_run n cs) as (R1 & _). cbn zeta. rewrite R1.
  cbn [BatchConsoleInput.m_blockDepth BatchConsoleInput.m_commandProcessor
       wired_session].
  pose proof (wired_depth n cs 0%Z []) as D. rewrite Z.add_0_l in D.
  split; [exact D|]. eexists. split; [reflexivity|].
  cbn [m_blockForced m_bulkSize m_subscribers wired_engine]. rewrite D. auto.
Qed.

(** X9: after any lines both subscribers are alive and the snapshot each of
    them holds is the pending batch of the engine. *)
Theorem X9_subscribers_hold_pending_batch n cs :
  let r := BatchConsoleInput.run cs (BatchConsoleInput.create n empty_world) in
  exists p,
    BatchConsoleInput.m_commandProcessor r.1 = Some p
    /\ heap r.2 !! 0 = Some (Output.mk Output.ReportWriter (m_commands p))
    /\ heap r.2 !! 1 = Some (Output.mk Output.ConsoleOutput (m_commands p)).
Proof.
  destruct (session_run n cs) as (R1 & _ & (H0 & H1)). cbn zeta. rewrite R1.
  eexists. split; [reflexivity|]. split; assumption.
Qed.

(** X10: outside a block the pending batch never stays at the threshold:
    whenever forced-hold is off after a line, the pending batch is empty or
    shorter than the threshold. *)
Theorem X10_pending_below_threshold n cs :
  let r := BatchConsoleInput.run cs (BatchConsoleInput.create n empty_world) in
  exists p,
    BatchConsoleInput.m_commandProcessor r.1 = Some p
    /\ (m_blockForced p = false ->
        m_commands p = [] \/ length (m_commands p) < n).
Proof.
  destruct (session_run n cs) as (R1 & _). cbn zeta. rewrite R1.
  eexists. split; [reflexivity|].
  cbn [m_blockForced m_commands wired_engine].
  apply wired_lines_short. intros _. left. reflexivity.
Qed.

Lemma wired_line_passthrough n c pending :
  passthrough c = true ->
  wired_line n c (0%Z, pending)
  = if n <=? length (pending ++ [c])
    then ((0%Z, []),
          EvSubmit c :: wired_updates (pending ++ [c])
                        ++ wired_flush (pending ++ [c]))
    else ((0%Z, pending ++ [c]), EvSubmit c :: wired_updates (pending ++ [c])).
Proof.
  unfold wired_line, passthrough. cbn [fst snd].
  destruct (is_open c); [discriminate|]. destruct (is_close c); [discriminate|].
  reflexivity.
Qed.

Lemma wired_lines_batch_size n cs s : forall pending,
  s ∈ [0; 1] ->
  Forall (fun c => passthrough c = true) cs ->
  length pending < Nat.max n 1 ->
  Forall (fun b => length b = Nat.max n 1)
         (flushed s (wired_lines n cs (0%Z, pending)).2).
Proof.
  induction cs as [|c cs IH]; intros pending Hs Hp Hl; [constructor|].
  apply Forall_cons in Hp. destruct Hp as [Hc Hp].
  cbn [wired_lines fst snd]. rewrite (wired_line_passthrough n c pending Hc).
  assert (Hsnap : length (pending ++ [c]) = S (length pending))
    by (rewrite length_app; simpl; lia).
  destruct (Nat.leb_spec n (length (pending ++ [c]))) as [Hn|Hn]; cbn [fst snd].
  - rewrite flushed_app. apply Forall_app. split.
    + unfold wired_updates. cbn [app].
      rewrite flushed_cons_submit, !flushed_cons_update,
        (flushed_wired_flush s _ Hs).
      destruct (pending ++ [c]) eqn:E; [constructor|].
      constructor; [lia|constructor].
    + apply IH; try assumption. simpl. lia.
  - rewrite flushed_app. apply Forall_app. split; [constructor|].
    apply IH; try assumption. lia.
Qed.

(** X11: when the lines hold no marker, every batch that a subscriber
    flushes has exactly as many commands as the threshold, and exactly one
    when the threshold is 0. *)
Theorem X11_batches_have_threshold_size n cs :
  Forall (fun c => passthrough c = true) cs ->
  let r := BatchConsoleInput.run cs (BatchConsoleInput.create n empty_world) in
  Forall (fun b => length b = Nat.max n 1) (flushed 0 (log r.2))
  /\ Forall (fun b => length b = Nat.max n 1) (flushed 1 (log r.2)).
Proof.
  intros Hp. destruct (session_run n cs) as (_ & Rl & _). cbn zeta.
  rewrite Rl.
  split; apply wired_lines_batch_size; try assumption;
    try (set_unfold; auto; fail); simpl; lia.
Qed.

(** The two threads of a fan-out of the session, written out. *)
Lemma wired_units_cons c b :
  wired_units (c :: b)
  = [ mkUnit 0 (c :: b)
        (WriteFile (Z.quot (timeStamp c) ticks_per_second)
                   (BULK +:+ Output.Join (c :: b)));
      mkUnit 1 (c :: b) (WriteConsole (BULK +:+ Output.Join (c :: b))) ].
Proof. reflexivity. Qed.

Lemma wired_lines_fanouts n cs : forall st,
  Forall (fun us => exists c b, us = wired_units (c :: b))
         (fanouts (wired_lines n cs st).2).
Proof.
  assert (F : forall b, Forall (fun us => exists c b, us = wired_units (c :: b))
                               (fanouts (wired_flush b))).
  { intros [|c b]; [constructor|]. repeat constructor. eauto. }
  induction cs as [|c cs IH]; intros st; [constructor|].
  cbn [wired_lines snd]. rewrite fanouts_app. apply Forall_app.
  split; [|apply IH].
  unfold wired_line.
  destruct (is_open c).
  { destruct (st.1 =? 0)%Z; cbn [snd]; [apply F|constructor]. }
  destruct (is_close c).
  { destruct (st.1 - 1 =? 0)%Z; cbn [snd]; [apply F|constructor]. }
  destruct (negb (0 <? st.1)%Z && (n <=? length (st.2 ++ [c]))); cbn [snd].
  - apply (F (st.2 ++ [c])).
  - constructor.
Qed.

(** X12: every fan-out of a session has two threads on the same non-empty
    batch. The report writer writes the word "bulk: " followed by the joined
    texts to a file named after the whole seconds of the time stamp of the
    first command of the batch; the console output prints the same text. *)
Theorem X12_fanout_writes_file_and_console n cs :
  let r := BatchConsoleInput.run cs (BatchConsoleInput.create n empty_world) in
  Forall
    (fun us => exists c b,
       us = [ mkUnit 0 (c :: b)
                (WriteFile (Z.quot (timeStamp c) ticks_per_second)
                           (BULK +:+ Output.Join (c :: b)));
              mkUnit 1 (c :: b)
                (WriteConsole (BULK +:+ Output.Join (c :: b))) ])
    (fanouts (log r.2)).
Proof.
  destruct (session_run n cs) as (_ & Rl & _). cbn zeta. rewrite Rl.
  apply wired_lines_fanouts.
Qed.

(** X13: deleting a session makes no subscriber flush: when the destructor
    of the engine runs, the subscribers are gone already. What each
    subscriber has flushed, and every effect of a flush action, is what it
    was after the last line; commands that were pending then are never
    flushed. *)
Theorem X13_disconnect_flushes_nothing n cs s :
  let r := BatchConsoleInput.run cs (BatchConsoleInput.create n empty_world) in
  async.disconnect (Some r.1) r.2 = BatchConsoleInput.lifetime n cs
  /\ flushed s (log (BatchConsoleInput.lifetime n cs)) = flushed s (log r.2)
  /\ effects (log (BatchConsoleInput.lifetime n cs)) = effects (log r.2)
  /\ updates s (log (BatchConsoleInput.lifetime n cs)) = updates s (log r.2).
Proof.
  cbn zeta. split; [reflexivity|].
  rewrite session_lifetime. destruct (session_run n cs) as (_ & Rl & _).
  rewrite Rl. cbn zeta.
  match goal with
  | |- context [(wired_lines n cs (0%Z, [])).2 ++ ?e] => set (E := e)
  end.
  assert (HE : E = [] \/ E = [EvFanOut []]).
  { unfold E. destruct (0 <? _)%Z; [auto|].
    destruct (wired_lines n cs (0%Z, [])).1.2; auto. }
  unfold effects, updates.
  rewrite flushed_app, fanouts_app, omap_app, concat_app, fmap_app.
  destruct HE as [-> | ->]; simpl; rewrite ?app_nil_r; auto.
Qed.

End Kept.

(** * Further properties: the registry of the engine *)

Section Registry.
Import BatchCommandProcessor.

Lemma keeps_objects_of (subs : list nat) snap (w w' : World) :
  (forall s, heap w' !! s =
     if decide (s ∈ subs) then Output.update snap <$> heap w !! s
     else heap w !! s) ->
  keeps_objects subs w w'.
Proof.
  intros H s. rewrite H. destruct (decide (s ∈ subs)); split;
    try reflexivity; try contradiction.
  destruct (heap w !! s); reflexivity.
Qed.

(** X14: the operations of the engine change no object that is not
    registered, never change the class of an object, and neither create nor
    destroy one; the registry and the threshold stay as they are. *)
Theorem X14_engine_touches_only_registered_objects c p w :
  (keeps_objects (m_subscribers p) w (ProcessCommand c p w).2
   /\ m_subscribers (ProcessCommand c p w).1 = m_subscribers p
   /\ m_bulkSize (ProcessCommand c p w).1 = m_bulkSize p)
  /\ (keeps_objects (m_subscribers p) w (StartBlock p w).2
      /\ m_subscribers (StartBlock p w).1 = m_subscribers p
      /\ m_bulkSize (StartBlock p w).1 = m_bulkSize p)
  /\ (keeps_objects (m_subscribers p) w (FinishBlock p w).2
      /\ m_subscribers (FinishBlock p w).1 = m_subscribers p
      /\ m_bulkSize (FinishBlock p w).1 = m_bulkSize p)
  /\ keeps_objects (m_subscribers p) w (notify p w).
Proof.
  destruct (ProcessCommand_spec c p w) as (P1 & _ & _ & Ph).
  unfold StartBlock, FinishBlock.
  destruct (DumpBatch_spec (set_forced true p) (emit EvStartBlock w))
    as (S1 & _ & _ & Sh).
  destruct (DumpBatch_spec (set_forced false p) (emit EvFinishBlock w))
    as (F1 & _ & _ & Fh).
  destruct (notify_spec p w) as (_ & _ & Nh).
  rewrite P1, S1, F1.
  repeat split; try reflexivity;
    eapply keeps_objects_of; eassumption.
Qed.

(** X15: after a submission or a hold transition every registered object
    that is alive holds the pending batch of the engine, whatever it held
    before. *)
Theorem X15_engine_leaves_subscribers_in_sync c p w :
  synced (ProcessCommand c p w).1 (heap (ProcessCommand c p w).2)
  /\ synced (StartBlock p w).1 (heap (StartBlock p w).2)
  /\ synced (FinishBlock p w).1 (heap (FinishBlock p w).2).
Proof.
  destruct (ProcessCommand_spec c p w) as (P1 & _ & _ & Ph).
  unfold StartBlock, FinishBlock.
  destruct (DumpBatch_spec (set_forced true p) (emit EvStartBlock w))
    as (S1 & _ & _ & Sh).
  destruct (DumpBatch_spec (set_forced false p) (emit EvFinishBlock w))
    as (F1 & _ & _ & Fh).
  rewrite P1, S1, F1. unfold synced.
  cbn [m_subscribers m_commands set_commands set_forced] in *.
  repeat split; intros s o Hs E.
  - rewrite Ph in E. destruct (decide (s ∈ m_subscribers p)); [|contradiction].
    destruct (heap w !! s); [|discriminate]. injection E as <-. reflexivity.
  - rewrite Sh in E. destruct (decide (s ∈ m_subscribers p)); [|contradiction].
    cbn [emit heap] in E.
    destruct (heap w !! s); [|discriminate]. injection E as <-. reflexivity.
  - rewrite Fh in E. destruct (decide (s ∈ m_subscribers p)); [|contradiction].
    cbn [emit heap] in E.
    destruct (heap w !! s); [|discriminate]. injection E as <-. reflexivity.
Qed.

Lemma unSubscribe_alive s p w :
  is_Some (heap w !! s) ->
  m_subscribers (unSubscribe (Some s) p w)
  = filter (fun e => e <> s) (m_subscribers p).
Proof.
  intros A. unfold unSubscribe. cbn [m_subscribers set_subscribers].
  induction (m_subscribers p) as [|a l IH]; [reflexivity|].
  rewrite !filter_cons, IH.
  destruct (decide (a <> s)) as [N|N].
  - rewrite decide_True; [reflexivity|]. intros [_ E]. contradiction.
  - rewrite decide_False; [reflexivity|]. intros H. apply H.
    destruct (decide (a = s)) as [->|]; [auto|contradiction].
Qed.

Lemma filter_absent (s : nat) (l : list nat) :
  s ∉ l -> filter (fun e => e <> s) l = l.
Proof.
  induction l as [|a l IH]; intros N; [reflexivity|].
  rewrite filter_cons, decide_True, IH; [reflexivity| |].
  - intros H. apply N. right. exact H.
  - intros ->. apply N. left.
Qed.

(** X16: [unSubscribe] drops every entry of the object it is given and
    keeps the others in their order; after [subscribe] of an object that was
    not registered it gives the engine back as it was. *)
Theorem X16_unSubscribe_undoes_subscribe s p w :
  is_Some (heap w !! s) ->
  (s ∉ m_subscribers (unSubscribe (Some s) p w))
  /\ m_subscribers (unSubscribe (Some s) p w)
     = filter (fun e => e <> s) (m_subscribers p)
  /\ (s ∉ m_subscribers p ->
      unSubscribe (Some s) (subscribe (Some s) p) w = p).
Proof.
  intros A. rewrite (unSubscribe_alive s p w A).
  split; [|split; [reflexivity|]].
  - intros H. apply list_elem_of_filter in H. destruct H as [H _]. auto.
  - intros N.
    pose proof (unSubscribe_alive s (subscribe (Some s) p) w A) as U.
    cbn [subscribe m_subscribers set_subscribers] in U.
    rewrite filter_app, (filter_absent s _ N) in U.
    rewrite filter_cons, decide_False in U by auto.
    cbn [filter] in U. rewrite filter_nil, app_nil_r in U.
    unfold unSubscribe, subscribe in *.
    cbn [m_subscribers set_subscribers m_bulkSize m_blockForced m_commands] in *.
    rewrite U. destruct p; reflexivity.
Qed.

Lemma updates_app s l1 l2 : updates s (l1 ++ l2) = updates s l1 ++ updates s l2.
Proof. apply omap_app. Qed.

Lemma elem_of_live (h : gmap nat Output.t) subs s :
  s ∈ live h subs <-> s ∈ subs /\ is_Some (h !! s).
Proof.
  unfold live. rewrite list_elem_of_omap. split.
  - intros (x & Hx & E). destruct (h !! x) as [o|] eqn:Eo; [|discriminate].
    injection E as <-. split; [exact Hx|]. rewrite Eo. eauto.
  - intros [Hs [o Eo]]. exists s. rewrite Eo. auto.
Qed.

Lemma updates_notifications_absent s snap h subs :
  s ∉ subs -> updates s (notifications snap h subs) = [].
Proof.
  intros N. unfold notifications.
  assert (Forall (fun e => e <> s) (live h subs)) as F.
  { apply Forall_forall. intros e He ->. apply elem_of_live in He.
    destruct He as [He _]. contradiction. }
  induction F as [|e l He _ IH]; [reflexivity|].
  rewrite fmap_cons. unfold updates in *. cbn [omap list_omap].
  rewrite decide_False by exact He. exact IH.
Qed.

Lemma silent_dump_events s pending h subs :
  s ∉ subs ->
  updates s (dump_events pending h subs) = []
  /\ flushed s (dump_events pending h subs) = [].
Proof.
  intros N. unfold dump_events.
  rewrite updates_app, flushed_app, flushed_notifications,
    (updates_notifications_absent s _ _ _ N), !app_nil_r.
  destruct pending; [split; reflexivity|]. split; [reflexivity|].
  rewrite flushed_fanout, (spawn_absent h s subs N). reflexivity.
Qed.

Lemma unregistered_silent s c p w :
  s ∉ m_subscribers p ->
  (updates s (log (ProcessCommand c p w).2) = updates s (log w)
   /\ flushed s (log (ProcessCommand c p w).2) = flushed s (log w)
   /\ heap (ProcessCommand c p w).2 !! s = heap w !! s)
  /\ (updates s (log (StartBlock p w).2) = updates s (log w)
      /\ flushed s (log (StartBlock p w).2) = flushed s (log w)
      /\ heap (StartBlock p w).2 !! s = heap w !! s)
  /\ (updates s (log (FinishBlock p w).2) = updates s (log w)
      /\ flushed s (log (FinishBlock p w).2) = flushed s (log w)
      /\ heap (FinishBlock p w).2 !! s = heap w !! s).
Proof.
  intros N.
  destruct (ProcessCommand_spec c p w) as (_ & Pl & _ & Ph).
  unfold StartBlock, FinishBlock.
  destruct (DumpBatch_spec (set_forced true p) (emit EvStartBlock w))
    as (_ & Sl & _ & Sh).
  destruct (DumpBatch_spec (set_forced false p) (emit EvFinishBlock w))
    as (_ & Fl & _ & Fh).
  cbn [m_subscribers m_commands set_forced emit heap log] in *.
  rewrite Pl, Sl, Fl, Ph, Sh, Fh.
  destruct (decide (s ∈ m_subscribers p)); [contradiction|].
  destruct (silent_dump_events s (m_commands p) (heap w) _ N) as [U F].
  rewrite <- !app_assoc, !updates_app, !flushed_app, U, F.
  split; [|split; split; try split; try reflexivity; apply app_nil_r].
  change (EvSubmit c :: ?l) with ([EvSubmit c] ++ l).
  rewrite !updates_app, !flushed_app, flushed_notifications,
    (updates_notifications_absent s _ _ _ N).
  destruct (negb (m_blockForced p) && _).
  - change (EvFanOut ?u :: ?l) with ([EvFanOut u] ++ l).
    rewrite !updates_app, !flushed_app, flushed_notifications,
      (updates_notifications_absent s _ _ _ N), flushed_fanout,
      (spawn_absent _ s _ N), !app_nil_r.
    repeat split; apply app_nil_r.
  - repeat split; apply app_nil_r.
Qed.

(** X17: an object that is not in the registry, for instance after
    [unSubscribe], is not notified, takes part in no fan-out and is not
    changed by a submission or a hold transition. *)
Theorem X17_unregistered_object_sees_nothing s c p w :
  s ∉ m_subscribers p ->
  (updates s (log (ProcessCommand c p w).2) = updates s (log w)
   /\ flushed s (log (ProcessCommand c p w).2) = flushed s (log w)
   /\ heap (ProcessCommand c p w).2 !! s = heap w !! s)
  /\ (updates s (log (StartBlock p w).2) = updates s (log w)
      /\ flushed s (log (StartBlock p w).2) = flushed s (log w)
      /\ heap (StartBlock p w).2 !! s = heap w !! s)
  /\ (updates s (log (FinishBlock p w).2) = updates s (log w)
      /\ flushed s (log (FinishBlock p w).2) = flushed s (log w)
      /\ heap (FinishBlock p w).2 !! s = heap w !! s).
Proof. apply unregistered_silent. Qed.

Lemma registry_kept c p w :
  m_subscribers (ProcessCommand c p w).1 = m_subscribers p
  /\ m_subscribers (StartBlock p w).1 = m_subscribers p
  /\ m_subscribers (FinishBlock p w).1 = m_subscribers p.
Proof.
  destruct (ProcessCommand_spec c p w) as (P1 & _).
  unfold StartBlock, FinishBlock.
  destruct (DumpBatch_spec (set_forced true p) (emit EvStartBlock w)) as (S1 & _).
  destruct (DumpBatch_spec (set_forced false p) (emit EvFinishBlock w)) as (F1 & _).
  rewrite P1, S1, F1. auto.
Qed.

(** A line received by a session leaves every object that its engine has
    not registered as it was, and logs nothing for it. *)
Lemma line_unregistered x c s p w :
  BatchConsoleInput.m_commandProcessor s = Some p ->
  x ∉ m_subscribers p ->
  let r := BatchConsoleInput.ProcessCommand c s w in
  (exists p', BatchConsoleInput.m_commandProcessor r.1 = Some p'
              /\ m_subscribers p' = m_subscribers p)
  /\ updates x (log r.2) = updates x (log w)
  /\ flushed x (log r.2) = flushed x (log w)
  /\ heap r.2 !! x = heap w !! x.
Proof.
  intros E N. cbn zeta. unfold BatchConsoleInput.ProcessCommand. rewrite E.
  destruct (unregistered_silent x c p w N) as (HP & HS & HF).
  destruct (registry_kept c p w) as (RP & RS & RF).
  assert (K : forall q v,
             m_subscribers q = m_subscribers p ->
             updates x (log v) = updates x (log w)
             /\ flushed x (log v) = flushed x (log w)
             /\ heap v !! x = heap w !! x ->
             (exists p', Some q = Some p' /\ m_subscribers p' = m_subscribers p)
             /\ updates x (log v) = updates x (log w)
             /\ flushed x (log v) = flushed x (log w)
             /\ heap v !! x = heap w !! x).
  { intros q v Hq Hv. split; [exists q; auto|exact Hv]. }
  destruct (String.eqb (text c) START_BLOCK).
  { destruct (BatchConsoleInput.m_blockDepth s =? 0)%Z;
      cbn [fst snd BatchConsoleInput.with_engine BatchConsoleInput.with_depth
           BatchConsoleInput.m_commandProcessor];
      [apply K; assumption|rewrite E; apply K; auto]. }
  destruct (String.eqb (text c) END_BLOCK).
  { destruct (BatchConsoleInput.m_blockDepth s - 1 =? 0)%Z;
      cbn [fst snd BatchConsoleInput.with_engine BatchConsoleInput.with_depth
           BatchConsoleInput.m_commandProcessor];
      [apply K; assumption|rewrite E; apply K; auto]. }
  cbn [fst snd BatchConsoleInput.with_engine
       BatchConsoleInput.m_commandProcessor].
  apply K; assumption.
Qed.

Lemma lines_unregistered x cs : forall s p w,
  BatchConsoleInput.m_commandProcessor s = Some p ->
  x ∉ m_subscribers p ->
  let r := BatchConsoleInput.run cs (s, w) in
  updates x (log r.2) = updates x (log w)
  /\ flushed x (log r.2) = flushed x (log w)
  /\ heap r.2 !! x = heap w !! x.
Proof.
  induction cs as [|c cs IH]; intros s p w E N; [cbn; auto|].
  cbn [BatchConsoleInput.run fold_left fst snd].
  destruct (line_unregistered x c s p w E N) as ((p' & E' & R) & U & F & H).
  destruct (BatchConsoleInput.ProcessCommand c s w) as [s1 w1].
  cbn [fst snd] in *. rewrite <- R in N.
  destruct (IH s1 p' w1 E' N) as (U' & F' & H').
  unfold BatchConsoleInput.run in *. cbn zeta in *.
  rewrite U', F', H', U, F, H. auto.
Qed.

(** X18: sessions do not interfere. Of two sessions connected one after
    the other, what either of them receives never notifies, flushes or
    changes the subscribers of the other. *)
Theorem X18_sessions_are_isolated n1 n2 now data size x :
  let a := async.connect n1 empty_world in
  let b := async.connect n2 a.2 in
  (x ∈ [0; 1] ->
   updates x (log (async.receive now b.1 data size b.2).2) = []
   /\ flushed x (log (async.receive now b.1 data size b.2).2) = []
   /\ heap (async.receive now b.1 data size b.2).2 !! x = heap b.2 !! x)
  /\ (x ∈ [2; 3] ->
      updates x (log (async.receive now a.1 data size b.2).2) = []
      /\ flushed x (log (async.receive now a.1 data size b.2).2) = []
      /\ heap (async.receive now a.1 data size b.2).2 !! x = heap b.2 !! x).
Proof.
  cbn zeta. unfold async.receive, async.connect. cbn [fst snd].
  set (wa := (BatchConsoleInput.create n1 empty_world).2).
  set (wb := (BatchConsoleInput.create n2 wa).2).
  split; intros Hx.
  - refine (lines_unregistered x _ (BatchConsoleInput.create n2 wa).1
              {| m_bulkSize := n2; m_blockForced := false; m_commands := [];
                 m_subscribers := [2; 3] |} wb eq_refl _).
    cbn [m_subscribers]. set_unfold. lia.
  - refine (lines_unregistered x _ (BatchConsoleInput.create n1 empty_world).1
              {| m_bulkSize := n1; m_blockForced := false; m_commands := [];
                 m_subscribers := [0; 1] |} wb eq_refl _).
    cbn [m_subscribers]. set_unfold. lia.
Qed.

Lemma spawn_app (h : gmap nat Output.t) l1 l2 :
  spawn h (l1 ++ l2) = spawn h l1 ++ spawn h l2.
Proof. apply omap_app. Qed.

Lemma effect_of_fanout l us l' u :
  u ∈ us -> unit_effect u ∈ effects (l ++ EvFanOut us :: l').
Proof.
  intros Hu. unfold effects.
  change (EvFanOut us :: l') with ([EvFanOut us] ++ l').
  rewrite !fanouts_app, !concat_app, !fmap_app.
  apply elem_of_app. right. apply elem_of_app. left.
  cbn [fanouts omap list_omap concat]. rewrite app_nil_r.
  apply list_elem_of_fmap. exists u. auto.
Qed.

(** X19: [subscribe] hands the new subscriber nothing. A report writer
    subscribed while a batch is pending still holds an empty snapshot, and a
    hold transition that comes before the next submission makes it flush
    that: it evaluates [m_commands[0]] on an empty vector. *)
Theorem X19_late_subscriber_flushes_empty_snapshot s p w :
  m_commands p <> [] ->
  heap w !! s = Some (Output.mk Output.ReportWriter []) ->
  IndexOutOfRange ∈ effects (log (StartBlock (subscribe (Some s) p) w).2)
  /\ IndexOutOfRange ∈ effects (log (FinishBlock (subscribe (Some s) p) w).2).
Proof.
  intros NE E. unfold StartBlock, FinishBlock.
  destruct (DumpBatch_spec (set_forced true (subscribe (Some s) p))
                           (emit EvStartBlock w)) as (_ & Sl & _).
  destruct (DumpBatch_spec (set_forced false (subscribe (Some s) p))
                           (emit EvFinishBlock w)) as (_ & Fl & _).
  cbn [m_subscribers m_commands set_forced set_subscribers subscribe
       emit heap log] in *.
  rewrite Sl, Fl, !dump_events_cons by exact NE.
  assert (U : mkUnit s [] IndexOutOfRange
              ∈ spawn (heap w) (m_subscribers p ++ [s])).
  { rewrite spawn_app. apply elem_of_app. right.
    rewrite spawn_cons, E. left. }
  split; apply (effect_of_fanout _ _ _ _ U).
Qed.

Lemma spawn_live (h h' : gmap nat Output.t) subs :
  (forall s, h !! s = None -> h' !! s = None) ->
  spawn h' (live h subs) = spawn h' subs.
Proof.
  intros D. induction subs as [|a subs IH]; [reflexivity|].
  rewrite live_cons, (spawn_cons h' a subs).
  destruct (h !! a) eqn:E.
  - rewrite spawn_cons, IH. reflexivity.
  - rewrite (D a E). exact IH.
Qed.

Lemma live_live (h : gmap nat Output.t) subs :
  live h (live h subs) = live h subs.
Proof.
  induction subs as [|a subs IH]; [reflexivity|].
  rewrite live_cons. destruct (h !! a) eqn:E; [|exact IH].
  rewrite live_cons, E, IH. reflexivity.
Qed.

Lemma World_eq (w1 w2 : World) :
  heap w1 = heap w2 -> next w1 = next w2 -> log w1 = log w2 -> w1 = w2.
Proof. destruct w1, w2. simpl. intros -> -> ->. reflexivity. Qed.

(** X20: handles of destroyed objects are skipped without a trace: a
    submission leaves the same world, log and objects, and the same pending
    batch, as it does on the engine whose registry holds the live entries
    only. *)
Theorem X20_dead_handles_are_skipped c p w :
  let q := set_subscribers (live (heap w) (m_subscribers p)) p in
  (ProcessCommand c q w).2 = (ProcessCommand c p w).2
  /\ m_commands (ProcessCommand c q w).1 = m_commands (ProcessCommand c p w).1.
Proof.
  intros q.
  destruct (ProcessCommand_spec c p w) as (P1 & Pl & Pn & Ph).
  destruct (ProcessCommand_spec c q w) as (Q1 & Ql & Qn & Qh).
  cbn [m_subscribers m_commands m_blockForced m_bulkSize set_subscribers q]
    in *.
  split; [|rewrite P1, Q1; reflexivity].
  apply World_eq.
  - apply map_eq. intros s. rewrite Ph, Qh.
    destruct (decide (s ∈ live (heap w) (m_subscribers p))) as [L|L],
             (decide (s ∈ m_subscribers p)) as [M|M]; try reflexivity.
    + apply elem_of_live in L. destruct L. contradiction.
    + destruct (heap w !! s) eqn:E; [|reflexivity].
      exfalso. apply L. apply elem_of_live. split; [exact M|]. rewrite E. eauto.
  - rewrite Pn, Qn. reflexivity.
  - rewrite Pl, Ql. unfold notifications. rewrite live_live.
    rewrite (spawn_live (heap w)); [reflexivity|].
    intros s E. rewrite lookup_fmap, E. reflexivity.
Qed.

End Registry.

(** * Concrete runs of the further properties *)

Section FurtherInstances.
Import BatchCommandProcessor.

Lemma is_line_a : is_line "a".
Proof. split; [discriminate|reflexivity]. Defined.

Lemma is_line_bc : is_line "bc".
Proof. split; [discriminate|reflexivity]. Defined.

Lemma X4_parts_of_joined_lines_witness :
  Forall is_line ["a"; "bc"]
  /\ async.parts (String.concat newline ["a"; "bc"]) = ["a"; "bc"].
Proof.
  assert (H : Forall is_line ["a"; "bc"]).
  { constructor; [exact is_line_a|].
    constructor; [exact is_line_bc|constructor]. }
  split; [exact H|].
  exact (proj1 (X4_parts_of_joined_lines ["a"; "bc"] H)).
Defined.

Lemma X6_receive_does_not_rejoin_witness :
  is_line "a" /\ is_line "bc"
  /\ async.receive (fun _ => 0%Z)
                   (Some (BatchConsoleInput.create 3 empty_world).1)
                   ("a" +:+ "bc") 3
                   (BatchConsoleInput.create 3 empty_world).2
     = (Some (BatchConsoleInput.run
                [mkCommand ("a" +:+ "bc") 0]
                (BatchConsoleInput.create 3 empty_world)).1,
        (BatchConsoleInput.run
           [mkCommand ("a" +:+ "bc") 0]
           (BatchConsoleInput.create 3 empty_world)).2).
Proof.
  split; [exact is_line_a|]. split; [exact is_line_bc|].
  exact (proj2 (X6_receive_does_not_rejoin
                  (fun _ => 0%Z) (fun _ => 0%Z)
                  (BatchConsoleInput.create 3 empty_world).1 "a" "bc" 3 2
                  (BatchConsoleInput.create 3 empty_world).2
                  is_line_a is_line_bc)).
Defined.

Lemma X11_batches_have_threshold_size_witness :
  Forall (fun c => passthrough c = true) (cmd <$> ["a"; "b"; "c"; "d"; "e"])
  /\ Forall (fun b => length b = Nat.max 2 1)
            (flushed 0 (log (BatchConsoleInput.run
                               (cmd <$> ["a"; "b"; "c"; "d"; "e"])
                               (BatchConsoleInput.create 2 empty_world)).2)).
Proof.
  assert (H : Forall (fun c => passthrough c = true)
                     (cmd <$> ["a"; "b"; "c"; "d"; "e"]))
    by (repeat constructor).
  split; [exact H|].
  exact (proj1 (X11_batches_have_threshold_size
                  2 (cmd <$> ["a"; "b"; "c"; "d"; "e"]) H)).
Defined.

Lemma X16_unSubscribe_undoes_subscribe_witness :
  is_Some (heap (BatchConsoleInput.create 3 empty_world).2 !! 1)
  /\ m_subscribers
       (unSubscribe (Some 1) (wired_engine 3 0 [])
                    (BatchConsoleInput.create 3 empty_world).2)
     = [0].
Proof.
  assert (H : is_Some (heap (BatchConsoleInput.create 3 empty_world).2 !! 1))
    by (eexists; reflexivity).
  split; [exact H|].
  exact (proj1 (proj2 (X16_unSubscribe_undoes_subscribe
                         1 (wired_engine 3 0 [])
                         (BatchConsoleInput.create 3 empty_world).2 H))).
Defined.

Lemma X17_unregistered_object_sees_nothing_witness :
  (1 ∉ m_subscribers (engine_with 1 [0]))
  /\ heap (ProcessCommand (cmd "a") (engine_with 1 [0])
                          (BatchConsoleInput.create 3 empty_world).2).2 !! 1
     = Some (Output.mk Output.ConsoleOutput []).
Proof.
  assert (H : 1 ∉ m_subscribers (engine_with 1 [0])).
  { intros H. apply list_elem_of_singleton in H. discriminate H. }
  split; [exact H|].
  exact (proj2 (proj2 (proj1 (X17_unregistered_object_sees_nothing
                                1 (cmd "a") (engine_with 1 [0])
                                (BatchConsoleInput.create 3 empty_world).2
                                H)))).
Defined.

Lemma X18_sessions_are_isolated_witness :
  0 ∈ [0; 1]
  /\ flushed 0 (log (async.receive
                       (fun _ => 0%Z)
                       (async.connect 1 (async.connect 1 empty_world).2).1
                       "a" 1
                       (async.connect 1 (async.connect 1 empty_world).2).2).2)
     = [].
Proof.
  assert (H : 0 ∈ [0; 1]) by left.
  split; [exact H|].
  exact (proj1 (proj2 (proj1 (X18_sessions_are_isolated
                                1 1 (fun _ => 0%Z) "a" 1 0) H))).
Defined.

Lemma X19_late_subscriber_witness :
  m_commands (wired_engine 3 0 [cmd "a"]) <> []
  /\ heap (make_shared Output.ReportWriter
             (BatchConsoleInput.run
                [cmd "a"] (BatchConsoleInput.create 3 empty_world)).2).2 !! 2
     = Some (Output.mk Output.ReportWriter [])
  /\ IndexOutOfRange
     ∈ effects
         (log (FinishBlock
                 (subscribe (Some 2) (wired_engine 3 0 [cmd "a"]))
                 (make_shared Output.ReportWriter
                    (BatchConsoleInput.run
                       [cmd "a"]
                       (BatchConsoleInput.create 3 empty_world)).2).2).2).
Proof.
  assert (H1 : m_commands (wired_engine 3 0 [cmd "a"]) <> []) by discriminate.
  split; [exact H1|]. split; [reflexivity|].
  exact (proj2 (X19_late_subscriber_flushes_empty_snapshot
                  2 (wired_engine 3 0 [cmd "a"])
                  (make_shared Output.ReportWriter
                     (BatchConsoleInput.run
                        [cmd "a"] (BatchConsoleInput.create 3 empty_world)).2).2
                  H1 eq_refl)).
Defined.

End FurtherInstances.
